(** * Return calculator of App_RendaFixa

    A shallow embedding of the calculation engine of [src/main_app.py]:
    the class [Investimento] (constructor, [calcular_aliquota_ir],
    [calcular_rentabilidade]) and its three subclasses, then the table
    built by [exibir_resultados] and the summary [exibir_resumo], with the
    displayed elements as a log of events.

    Numbers.  Python integers (years, months) are [Z].  Amounts and rates
    reach the arithmetic as binary64 floats, and the engine is given twice.
    First over exact rationals [Q]: the formulas read in exact arithmetic,
    used only for what does not depend on rounding (the bracket table, the
    flags, the subclasses, a rate of zero).  Then, in module [Binary64],
    over the floats the interpreter computes with: rounding, infinities,
    NaN, signed zeros and [OverflowError] included.  Every statement about
    a computed amount is made on [Binary64].

    Exceptions.  The engine raises [ZeroDivisionError] (a division by zero,
    or zero raised to a negative power) and [OverflowError] (a power or a
    year count beyond the floats); a call returns [Ok v] or [Raise e]. *)

From Stdlib Require Import ZArith QArith Qpower Qfield Lqa Lia List String Bool.
From Stdlib Require Import Floats.
Import ListNotations.

Open Scope Q_scope.

(** ** Python's partial operations *)

Inductive exn : Type :=
| ZeroDivisionError
| OverflowError.

Inductive result (A : Type) : Type :=
| Ok (a : A)
| Raise (e : exn).

Arguments Ok {A} a.
Arguments Raise {A} e.

Definition bind {A B : Type} (r : result A) (k : A -> result B) : result B :=
  match r with
  | Ok a => k a
  | Raise e => Raise e
  end.

Notation "x <- c ;; k" := (bind c (fun x => k))
  (at level 61, c at next level, right associativity).

(** [a / b] in exact arithmetic: raises when the divisor is zero. *)
Definition py_div (a b : Q) : result Q :=
  if Qeq_bool b 0 then Raise ZeroDivisionError else Ok (a / b).

(** [x ** n] with an integer exponent, in exact arithmetic: zero to a
    negative power raises; otherwise a negative exponent gives the inverse
    of the positive power, which is what [Qpower] computes.  Nothing
    overflows here; the power of the floats is [Binary64.py_pow]. *)
Definition py_pow (x : Q) (n : Z) : result Q :=
  if (n <? 0)%Z && Qeq_bool x 0 then Raise ZeroDivisionError else Ok (x ^ n).

(** [range(lo, hi)]: the integers [lo, lo+1, ..., hi-1]; empty when
    [hi <= lo]. *)
Definition py_range (lo hi : Z) : list Z :=
  map (fun i => (lo + Z.of_nat i)%Z) (seq 0 (Z.to_nat (hi - lo))).

(** ** The class [Investimento], in exact arithmetic *)

(** The attributes an instance carries after [__init__]. *)
Record Investimento : Type := {
  investimento_inicial : Q;
  vencimento_ano : Z;
  ano_atual : Z;
  periodo_anos : Z;
  periodo_meses : Z
}.

(** [__init__]; the year read from the clock ([dt.datetime.now().year]) is
    the explicit argument [agora_ano]. *)
Definition __init__ (investimento_inicial : Q) (vencimento_ano : Z)
    (agora_ano : Z) : Investimento :=
  let ano_atual := agora_ano in
  let periodo_anos := (vencimento_ano - ano_atual)%Z in
  let periodo_meses := (periodo_anos * 12)%Z in
  {| investimento_inicial := investimento_inicial;
     vencimento_ano := vencimento_ano;
     ano_atual := ano_atual;
     periodo_anos := periodo_anos;
     periodo_meses := periodo_meses |}.

(** [calcular_aliquota_ir(self, meses)]. *)
Definition calcular_aliquota_ir (self : Investimento) (meses : Z) : Q :=
  if (meses <=? 6)%Z then 0.225
  else if (meses <=? 12)%Z then 0.20
  else if (meses <=? 24)%Z then 0.175
  else 0.15.

(** The returned dictionary, keys ["valor"] and ["porcentagem"]. *)
Record Resultado : Type := {
  valor : Q;
  porcentagem : Q
}.

(** One iteration of the coupon loop (lines 42-44): the running total
    after month [mes]. *)
Definition cupom_passo (self : Investimento) (taxa_anual : Q)
    (rentabilidade_liquida_total : Q) (mes : Z) : Q :=
  let aliquota_ir := calcular_aliquota_ir self mes in
  let rentabilidade_liquida_mensal := taxa_anual / 12 * (1 - aliquota_ir) in
  rentabilidade_liquida_total
  + investimento_inicial self * rentabilidade_liquida_mensal.

(** The coupon loop (lines 40-45), from total 0 over
    [range(1, self.periodo_meses + 1)]. *)
Definition rentabilidade_cupom (self : Investimento) (taxa_anual : Q) : Q :=
  fold_left (cupom_passo self taxa_anual)
            (py_range 1 (periodo_meses self + 1)) 0.

(** The variable [rentabilidade_bruta] (lines 47-50): any [tipo_juros]
    other than ["composto"] takes the simple-interest branch. *)
Definition rentabilidade_bruta (self : Investimento) (taxa_anual : Q)
    (tipo_juros : string) : result Q :=
  if String.eqb tipo_juros "composto" then
    fator <- py_pow (1 + taxa_anual) (periodo_anos self) ;;
    Ok (investimento_inicial self * fator - investimento_inicial self)
  else
    Ok (investimento_inicial self * taxa_anual * inject_Z (periodo_anos self)).

(** The variable [rentabilidade_liquida] (lines 39-56). *)
Definition rentabilidade_liquida (self : Investimento) (taxa_anual : Q)
    (tipo_juros : string) (cupom_mensal tem_ir : bool) : result Q :=
  if cupom_mensal then
    Ok (rentabilidade_cupom self taxa_anual)
  else
    bruta <- rentabilidade_bruta self taxa_anual tipo_juros ;;
    if tem_ir then
      let aliquota_ir := calcular_aliquota_ir self (periodo_meses self) in
      Ok (bruta * (1 - aliquota_ir))
    else
      Ok bruta.

(** [calcular_rentabilidade(self, taxa_anual, tipo_juros, cupom_mensal,
    tem_ir)]. *)
Definition calcular_rentabilidade (self : Investimento) (taxa_anual : Q)
    (tipo_juros : string) (cupom_mensal tem_ir : bool) : result Resultado :=
  liquida <- rentabilidade_liquida self taxa_anual tipo_juros
                                   cupom_mensal tem_ir ;;
  quociente <- py_div liquida (investimento_inicial self) ;;
  let porcentagem_rentabilidade := quociente * 100 in
  Ok {| valor := liquida; porcentagem := porcentagem_rentabilidade |}.

(** ** The subclasses *)

Inductive Classe : Type :=
| ClasseInvestimento
| ClasseInvestimentoPreFixado
| ClasseInvestimentoPosFixado
| ClasseInvestimentoInflacao.

(** [InvestimentoPosFixado.calcular_rentabilidade]: forwards its four
    arguments to [super()]. *)
Definition InvestimentoPosFixado_calcular_rentabilidade
    (self : Investimento) (taxa_anual : Q) (tipo_juros : string)
    (cupom_mensal tem_ir : bool) : result Resultado :=
  calcular_rentabilidade self taxa_anual tipo_juros cupom_mensal tem_ir.

(** [InvestimentoInflacao.calcular_rentabilidade]: the same forwarding. *)
Definition InvestimentoInflacao_calcular_rentabilidade
    (self : Investimento) (taxa_anual : Q) (tipo_juros : string)
    (cupom_mensal tem_ir : bool) : result Resultado :=
  calcular_rentabilidade self taxa_anual tipo_juros cupom_mensal tem_ir.

(** Method resolution: [InvestimentoPreFixado] has an empty body and
    inherits the base method; the other two override it. *)
Definition metodo_calcular_rentabilidade (c : Classe)
  : Investimento -> Q -> string -> bool -> bool -> result Resultado :=
  match c with
  | ClasseInvestimento => calcular_rentabilidade
  | ClasseInvestimentoPreFixado => calcular_rentabilidade
  | ClasseInvestimentoPosFixado => InvestimentoPosFixado_calcular_rentabilidade
  | ClasseInvestimentoInflacao => InvestimentoInflacao_calcular_rentabilidade
  end.

(** No subclass defines [__init__]: every class builds its instances with
    the base constructor. *)
Definition construtor (c : Classe) : Q -> Z -> Z -> Investimento :=
  match c with
  | ClasseInvestimento
  | ClasseInvestimentoPreFixado
  | ClasseInvestimentoPosFixado
  | ClasseInvestimentoInflacao => __init__
  end.

(** ** The sum the specification speaks of *)

(** [soma_ate f k] is f(1) + f(2) + ... + f(k). *)
Fixpoint soma_ate (f : Z -> Q) (k : nat) : Q :=
  match k with
  | O => 0
  | S k' => soma_ate f k' + f (Z.of_nat (S k'))
  end.

(** The sum of [f m] over the months m = 1..M; empty when [M <= 0]. *)
Definition soma_meses (f : Z -> Q) (M : Z) : Q :=
  soma_ate f (Z.to_nat M).

(** What month [m] adds to the coupon total, as the specification writes
    it: principal * (annualRate / 12) * (1 - bracket(m)). *)
Definition cupom_do_mes (self : Investimento) (taxa_anual : Q) (m : Z) : Q :=
  investimento_inicial self * (taxa_anual / 12)
  * (1 - calcular_aliquota_ir self m).

(** ** The engine in binary64

    The same class as the interpreter runs it: amounts and rates are
    binary64 floats ([PrimFloat], IEEE 754 round-to-nearest-even, specified
    by the standard library's [FloatAxioms]), years and months are integers.
    What Python's runtime does around the arithmetic is written out: the
    conversion of an integer operand to a float, the division that raises on
    a zero divisor, and the special cases of [float.__pow__].  The one
    function left open is the C library's [pow], a parameter of the engine:
    every theorem holds whatever that function returns. *)

Module Binary64.

Local Open Scope float_scope.
#[local] Set Warnings "-inexact-float".

(** An integer operand of a float operation ([PyLong_AsDouble]): the
    nearest float, ties to even; an integer too large for a float raises. *)
Definition float_of_int (z : Z) : result float :=
  match binary_normalize prec emax z 0 false with
  | S754_infinity _ => Raise OverflowError
  | sf => Ok (SF2Prim sf)
  end.

(** [a / b] on floats: raises when the divisor is 0.0 or -0.0. *)
Definition py_div (a b : float) : result float :=
  if b =? 0 then Raise ZeroDivisionError else Ok (a / b).

(** Whether the float of the integer [w] is an odd integer
    ([DOUBLE_IS_ODD_INTEGER]): from 2^53 on every float is even. *)
Definition impar (w : Z) : bool := Z.odd w && (Z.abs w <? 2 ^ 53)%Z.

Section Motor.

(** The C library's [pow]. *)
Variable libm_pow : float -> float -> float.

(** [iv ** w] for a float base and an integer exponent ([float_pow]): the
    exponent is converted first; the cases decided without the C library
    follow in the order of the source; the library's result raises
    [OverflowError] when it is infinite. *)
Definition py_pow (iv : float) (w : Z) : result float :=
  iw <- float_of_int w ;;
  if iw =? 0 then Ok 1
  else if is_nan iv then Ok iv
  else if is_infinity iv then
    if 0 <? iw then Ok (if impar w then iv else abs iv)
    else Ok (if impar w then (if iv <? 0 then neg_zero else zero) else 0)
  else if iv =? 0 then
    if iw <? 0 then Raise ZeroDivisionError
    else Ok (if impar w then iv else 0)
  else
    let negate_result := (iv <? 0) && impar w in
    let iv := if iv <? 0 then - iv else iv in
    if iv =? 1 then Ok (if negate_result then -1 else 1)
    else
      let ix := libm_pow iv iw in
      let ix := if negate_result then - ix else ix in
      if is_infinity ix then Raise OverflowError else Ok ix.

(** The attributes of an instance.  The amount invested comes from the
    form as a number (an integer of at most 53 bits, or a float); each
    operation of the engine on it is a float operation, which converts it
    first, so the instance holds the converted value. *)
Record Investimento : Type := {
  investimento_inicial : float;
  vencimento_ano : Z;
  ano_atual : Z;
  periodo_anos : Z;
  periodo_meses : Z
}.

Definition __init__ (investimento_inicial : float) (vencimento_ano : Z)
    (agora_ano : Z) : Investimento :=
  let ano_atual := agora_ano in
  let periodo_anos := (vencimento_ano - ano_atual)%Z in
  let periodo_meses := (periodo_anos * 12)%Z in
  {| investimento_inicial := investimento_inicial;
     vencimento_ano := vencimento_ano;
     ano_atual := ano_atual;
     periodo_anos := periodo_anos;
     periodo_meses := periodo_meses |}.

Definition calcular_aliquota_ir (self : Investimento) (meses : Z) : float :=
  if (meses <=? 6)%Z then 0.225
  else if (meses <=? 12)%Z then 0.20
  else if (meses <=? 24)%Z then 0.175
  else 0.15.

Record Resultado : Type := {
  valor : float;
  porcentagem : float
}.

(** One iteration of the coupon loop (lines 42-44). *)
Definition cupom_passo (self : Investimento) (taxa_anual : float)
    (rentabilidade_liquida_total : float) (mes : Z) : float :=
  let aliquota_ir := calcular_aliquota_ir self mes in
  let rentabilidade_liquida_mensal := taxa_anual / 12 * (1 - aliquota_ir) in
  rentabilidade_liquida_total
  + investimento_inicial self * rentabilidade_liquida_mensal.

(** The coupon loop (lines 40-45); the total starts as the integer 0, which
    the first addition converts to 0.0. *)
Definition rentabilidade_cupom (self : Investimento) (taxa_anual : float)
  : float :=
  fold_left (cupom_passo self taxa_anual)
            (py_range 1 (periodo_meses self + 1)) 0.

(** The variable [rentabilidade_bruta] (lines 47-50). *)
Definition rentabilidade_bruta (self : Investimento) (taxa_anual : float)
    (tipo_juros : string) : result float :=
  if String.eqb tipo_juros "composto" then
    fator <- py_pow (1 + taxa_anual) (periodo_anos self) ;;
    Ok (investimento_inicial self * fator - investimento_inicial self)
  else
    anos <- float_of_int (periodo_anos self) ;;
    Ok (investimento_inicial self * taxa_anual * anos).

(** The variable [rentabilidade_liquida] (lines 39-56). *)
Definition rentabilidade_liquida (self : Investimento) (taxa_anual : float)
    (tipo_juros : string) (cupom_mensal tem_ir : bool) : result float :=
  if cupom_mensal then
    Ok (rentabilidade_cupom self taxa_anual)
  else
    bruta <- rentabilidade_bruta self taxa_anual tipo_juros ;;
    if tem_ir then
      let aliquota_ir := calcular_aliquota_ir self (periodo_meses self) in
      Ok (bruta * (1 - aliquota_ir))
    else
      Ok bruta.

(** [calcular_rentabilidade]. *)
Definition calcular_rentabilidade (self : Investimento) (taxa_anual : float)
    (tipo_juros : string) (cupom_mensal tem_ir : bool) : result Resultado :=
  liquida <- rentabilidade_liquida self taxa_anual tipo_juros
                                   cupom_mensal tem_ir ;;
  quociente <- py_div liquida (investimento_inicial self) ;;
  let porcentagem_rentabilidade := quociente * 100 in
  Ok {| valor := liquida; porcentagem := porcentagem_rentabilidade |}.

(** The overriding methods of [InvestimentoPosFixado] and
    [InvestimentoInflacao]: each forwards its four arguments to
    [super()]. *)
Definition InvestimentoPosFixado_calcular_rentabilidade
    (self : Investimento) (taxa_anual : float) (tipo_juros : string)
    (cupom_mensal tem_ir : bool) : result Resultado :=
  calcular_rentabilidade self taxa_anual tipo_juros cupom_mensal tem_ir.

Definition InvestimentoInflacao_calcular_rentabilidade
    (self : Investimento) (taxa_anual : float) (tipo_juros : string)
    (cupom_mensal tem_ir : bool) : result Resultado :=
  calcular_rentabilidade self taxa_anual tipo_juros cupom_mensal tem_ir.

(** Method resolution, as for the exact engine. *)
Definition metodo_calcular_rentabilidade (c : Classe)
  : Investimento -> float -> string -> bool -> bool -> result Resultado :=
  match c with
  | ClasseInvestimento => calcular_rentabilidade
  | ClasseInvestimentoPreFixado => calcular_rentabilidade
  | ClasseInvestimentoPosFixado => InvestimentoPosFixado_calcular_rentabilidade
  | ClasseInvestimentoInflacao => InvestimentoInflacao_calcular_rentabilidade
  end.

End Motor.

(** No subclass defines [__init__]. *)
Definition construtor (c : Classe) : float -> Z -> Z -> Investimento :=
  match c with
  | ClasseInvestimento
  | ClasseInvestimentoPreFixado
  | ClasseInvestimentoPosFixado
  | ClasseInvestimentoInflacao => __init__
  end.

(** f(1) + f(2) + ... + f(k), added in that order from 0.0, each addition
    rounded. *)
Fixpoint soma_ate (f : Z -> float) (k : nat) : float :=
  match k with
  | O => 0
  | S k' => soma_ate f k' + f (Z.of_nat (S k'))
  end.

(** The sum of [f m] over the months m = 1..M in month order. *)
Definition soma_meses (f : Z -> float) (M : Z) : float :=
  soma_ate f (Z.to_nat M).

(** One month's coupon after tax, as the loop computes it. *)
Definition cupom_do_mes (self : Investimento) (taxa_anual : float) (m : Z)
  : float :=
  investimento_inicial self
  * (taxa_anual / 12 * (1 - calcular_aliquota_ir self m)).

(** A rounded value that carries the sign [s]: a zero, a finite number or an
    infinity of that sign, never NaN. *)
Definition de_sinal (s : bool) (x : spec_float) : Prop :=
  match x with
  | S754_zero s' | S754_infinity s' | S754_finite s' _ _ => s' = s
  | S754_nan => False
  end.

(** A float that is neither infinite nor NaN. *)
Definition finito (x : float) : Prop := is_finite x = true.

(** A float that is negative or a zero: not NaN and not above zero. *)
Definition nao_positivo (x : float) : Prop := (x <=? 0) = true.

End Binary64.

(** ** The views around the engine

    The Streamlit calls are modelled by what they do to one run of the
    script: a widget that the user fills in ([number_input], [checkbox],
    [radio]) is an argument of the function that reads it, and a call that
    displays something ([title], [table], [write], and the sidebar's
    [title], [markdown], [subheader]) appends an event to the log of the
    run.  A run ends by returning or by raising; the events displayed before
    an exception stay in the log. *)

(** The exceptions a run can end with: one raised by the engine, a missing
    key, a missing attribute. *)
Inductive erro : Type :=
| ErroCalculo (e : exn)
| KeyError (chave : string)
| AttributeError (atributo : string).

Inductive desfecho (A : Type) : Type :=
| Retorna (a : A)
| Levanta (e : erro).

Arguments Retorna {A} a.
Arguments Levanta {A} e.

(** A cell of a table: the views store formatted text, integers (the years)
    and booleans (the coupon check boxes). *)
Inductive celula : Type :=
| CelTexto (s : string)
| CelInteiro (z : Z)
| CelBool (b : bool).

(** A [pandas.DataFrame]: the row labels and the columns in order, each a
    name and one cell per row. *)
Record DataFrame : Type := {
  df_index : list celula;
  df_colunas : list (string * list celula)
}.

(** A row as [iterrows] yields it: the cells keyed by column name. *)
Definition Series : Type := list (string * celula).

(** [row[chave]]: a label that is not a column raises [KeyError]. *)
Definition getitem (row : Series) (chave : string) : desfecho celula :=
  match find (fun kv => String.eqb (fst kv) chave) row with
  | Some kv => Retorna (snd kv)
  | None => Levanta (KeyError chave)
  end.

(** [df.iterrows()]: one pair of label and row per entry of the index. *)
Definition iterrows (df : DataFrame) : list (celula * Series) :=
  map (fun i =>
         (nth i (df_index df) (CelInteiro (Z.of_nat i)),
          map (fun coluna => (fst coluna, nth i (snd coluna) (CelTexto "")))
              (df_colunas df)))
      (seq 0 (List.length (df_index df))).

(** [pd.DataFrame(linhas, columns=nomes)]: a table from a list of rows,
    labelled 0, 1, 2, ... *)
Definition DataFrame_de_linhas (linhas : list (list celula))
    (nomes : list string) : DataFrame :=
  {| df_index := map (fun i => CelInteiro (Z.of_nat i))
                     (seq 0 (List.length linhas));
     df_colunas :=
       map (fun j => (nth j nomes ""%string,
                      map (fun linha => nth j linha (CelTexto "")) linhas))
           (seq 0 (List.length nomes)) |}.

Inductive evento : Type :=
| SidebarTitle (s : string)
| SidebarMarkdown (s : string)
| SidebarSubheader (s : string)
| Title (s : string)
| Table (df : DataFrame)
| Write (s : string).

(** A run: the events displayed, and how it ended. *)
Definition UI (A : Type) : Type := (list evento * desfecho A)%type.

Definition ui_ret {A : Type} (a : A) : UI A := ([], Retorna a).

Definition ui_bind {A B : Type} (m : UI A) (k : A -> UI B) : UI B :=
  match m with
  | (log, Retorna a) => let (log', d) := k a in (log ++ log', d)
  | (log, Levanta e) => (log, Levanta e)
  end.

Notation "x <~ c ;; k" := (ui_bind c (fun x => k))
  (at level 61, c at next level, right associativity).

Definition emitir (ev : evento) : UI unit := ([ev], Retorna tt).

Definition levantar {A : Type} (e : erro) : UI A := ([], Levanta e).

(** A call of the engine inside a view: its exception ends the run. *)
Definition chamar {A : Type} (r : result A) : UI A :=
  match r with
  | Ok a => ui_ret a
  | Raise e => levantar (ErroCalculo e)
  end.

(** A computation that displays nothing. *)
Definition sem_eventos {A : Type} (d : desfecho A) : UI A := ([], d).

(** The dictionary [resultados] of a view, keys ["com_ir"] and ["sem_ir"]. *)
Record Resultados : Type := {
  com_ir : Resultado;
  sem_ir : Resultado
}.

Section Views.

(** The three number formats of the tables, [f"R$ {x:,.2f}"], [f"{x:.2%}"]
    and [f"{x:.2f}%"]: text produced by Python's float formatting, which is
    left open here. *)
Variable fmt_moeda : Q -> string.
Variable fmt_taxa : Q -> string.
Variable fmt_porcentagem : Q -> string.

(** [exibir_resultados]: builds the table of two rows, displays it and
    returns it. *)
Definition exibir_resultados (resultados : Resultados) (periodo_anos : Z)
    (investimento_inicial : Q) (cupom_mensal_com_ir cupom_mensal_sem_ir : bool)
    (taxa_com_ir taxa_sem_ir : Q) : UI DataFrame :=
  let resultados_df :=
    {| df_index := [CelTexto "Com IR"; CelTexto "Sem IR"];
       df_colunas :=
         [("Investimento Inicial"%string,
           [CelTexto (fmt_moeda investimento_inicial);
            CelTexto (fmt_moeda investimento_inicial)]);
          ("Vencimento (anos)"%string,
           [CelInteiro periodo_anos; CelInteiro periodo_anos]);
          ("Cupom Mensal"%string,
           [CelBool cupom_mensal_com_ir; CelBool cupom_mensal_sem_ir]);
          ("Taxa"%string,
           [CelTexto (fmt_taxa taxa_com_ir); CelTexto (fmt_taxa taxa_sem_ir)]);
          ("Rentabilidade Líquida"%string,
           [CelTexto (fmt_moeda (valor (com_ir resultados)));
            CelTexto (fmt_moeda (valor (sem_ir resultados)))]);
          ("Rentabilidade Total (%)"%string,
           [CelTexto (fmt_porcentagem (porcentagem (com_ir resultados)));
            CelTexto (fmt_porcentagem (porcentagem (sem_ir resultados)))])]
    |} in
  _ <~ emitir (Table resultados_df) ;;
  ui_ret resultados_df.

End Views.

(** The row [exibir_resumo] appends for one row of a table: the six cells
    are read from left to right, and the first missing column raises. *)
Definition linha_do_resumo (tipo_investimento : string) (row : Series)
  : desfecho (list celula) :=
  match getitem row "Investimento Inicial" with
  | Levanta e => Levanta e
  | Retorna c1 =>
  match getitem row "Vencimento" with
  | Levanta e => Levanta e
  | Retorna c2 =>
  match getitem row "Cupom Mensal" with
  | Levanta e => Levanta e
  | Retorna c3 =>
  match getitem row "Taxa" with
  | Levanta e => Levanta e
  | Retorna c4 =>
  match getitem row "Rentabilidade Líquida" with
  | Levanta e => Levanta e
  | Retorna c5 =>
  match getitem row "Rentabilidade Total (%)" with
  | Levanta e => Levanta e
  | Retorna c6 =>
      Retorna [CelTexto tipo_investimento; c1; c2; c3; c4; c5; c6]
  end end end end end end.

(** The inner loop of [exibir_resumo], over the rows of one table. *)
Fixpoint resumo_das_linhas (tipo_investimento : string)
    (rows : list (celula * Series)) (resumo_data : list (list celula))
  : desfecho (list (list celula)) :=
  match rows with
  | [] => Retorna resumo_data
  | (_, row) :: rows' =>
      match linha_do_resumo tipo_investimento row with
      | Levanta e => Levanta e
      | Retorna linha =>
          resumo_das_linhas tipo_investimento rows' (resumo_data ++ [linha])
      end
  end.

(** The outer loop, over the items of the dictionary in insertion order; a
    value that is [None] has no [iterrows]. *)
Fixpoint resumo_dos_itens (itens : list (string * option DataFrame))
    (resumo_data : list (list celula)) : desfecho (list (list celula)) :=
  match itens with
  | [] => Retorna resumo_data
  | (tipo_investimento, None) :: _ => Levanta (AttributeError "iterrows")
  | (tipo_investimento, Some df) :: itens' =>
      match resumo_das_linhas tipo_investimento (iterrows df) resumo_data with
      | Levanta e => Levanta e
      | Retorna resumo_data' => resumo_dos_itens itens' resumo_data'
      end
  end.

(** [exibir_resumo]; an empty dictionary is false. *)
Definition exibir_resumo
    (resultados_investimentos : list (string * option DataFrame)) : UI unit :=
  _ <~ emitir (Title "Resumo") ;;
  match resultados_investimentos with
  | _ :: _ =>
      resumo_data <~ sem_eventos (resumo_dos_itens resultados_investimentos []) ;;
      let resumo_df :=
        DataFrame_de_linhas resumo_data
          ["Tipo de Investimento"; "Investimento Inicial"; "Vencimento";
           "Cupom Mensal"; "Taxa"; "Rentabilidade Líquida";
           "Rentabilidade Total (%)"]%string in
      emitir (Table resumo_df)
  | [] => emitir (Write "Nenhum resultado de investimento disponível.")
  end.

(** ** The views and [main] over the binary64 engine

    The three views, each with its form, and [main], calling the engine of
    [Binary64].  What the user types in a [number_input] of a form is a
    float; the amount invested and the maturity year come from the sidebar
    as integers, the amount reaching the engine as its float (see
    [Binary64.Investimento]). *)

Module Binary64Views.

Import Binary64.
Local Open Scope float_scope.

(** The dictionary [resultados] of a view. *)
Record Resultados : Type := {
  com_ir : Resultado;
  sem_ir : Resultado
}.

Section Views.

Variable libm_pow : float -> float -> float.

(** The three number formats of the tables, left open. *)
Variable fmt_moeda : float -> string.
Variable fmt_taxa : float -> string.
Variable fmt_porcentagem : float -> string.

(** [exibir_resultados]. *)
Definition exibir_resultados (resultados : Resultados) (periodo_anos : Z)
    (investimento_inicial : float)
    (cupom_mensal_com_ir cupom_mensal_sem_ir : bool)
    (taxa_com_ir taxa_sem_ir : float) : UI DataFrame :=
  let resultados_df :=
    {| df_index := [CelTexto "Com IR"; CelTexto "Sem IR"];
       df_colunas :=
         [("Investimento Inicial"%string,
           [CelTexto (fmt_moeda investimento_inicial);
            CelTexto (fmt_moeda investimento_inicial)]);
          ("Vencimento (anos)"%string,
           [CelInteiro periodo_anos; CelInteiro periodo_anos]);
          ("Cupom Mensal"%string,
           [CelBool cupom_mensal_com_ir; CelBool cupom_mensal_sem_ir]);
          ("Taxa"%string,
           [CelTexto (fmt_taxa taxa_com_ir); CelTexto (fmt_taxa taxa_sem_ir)]);
          ("Rentabilidade Líquida"%string,
           [CelTexto (fmt_moeda (valor (com_ir resultados)));
            CelTexto (fmt_moeda (valor (sem_ir resultados)))]);
          ("Rentabilidade Total (%)"%string,
           [CelTexto (fmt_porcentagem (porcentagem (com_ir resultados)));
            CelTexto (fmt_porcentagem (porcentagem (sem_ir resultados)))])]
    |} in
  _ <~ emitir (Table resultados_df) ;;
  ui_ret resultados_df.

(** The dictionary the three views build: the taxed call first, then the
    untaxed one, both with the default [tipo_juros], the method resolved on
    the class of the instance. *)
Definition calcular_resultados (c : Classe) (investimento : Investimento)
    (taxa_com_ir : float) (cupom_mensal_com_ir : bool)
    (taxa_sem_ir : float) (cupom_mensal_sem_ir : bool) : result Resultados :=
  r_com <- metodo_calcular_rentabilidade libm_pow c investimento taxa_com_ir
                                         "composto" cupom_mensal_com_ir true ;;
  r_sem <- metodo_calcular_rentabilidade libm_pow c investimento taxa_sem_ir
                                         "composto" cupom_mensal_sem_ir false ;;
  Ok {| com_ir := r_com; sem_ir := r_sem |}.

(** What the user enters in the form of [exibir_pre_fixado]; the two rates
    are percentages. *)
Record FormPre : Type := {
  pre_taxa_com_ir : float;
  pre_cupom_mensal_com_ir : bool;
  pre_taxa_sem_ir : float;
  pre_cupom_mensal_sem_ir : bool
}.

(** [exibir_pre_fixado]; [None] is the value of a call that falls off the
    end of the function. *)
Definition exibir_pre_fixado (c : Classe) (investimento : Investimento)
    (form : FormPre) : UI (option DataFrame) :=
  _ <~ emitir (Title "Pré-fixado") ;;
  let taxa_com_ir := pre_taxa_com_ir form / 100 in
  let cupom_mensal_com_ir := pre_cupom_mensal_com_ir form in
  let taxa_sem_ir := pre_taxa_sem_ir form / 100 in
  let cupom_mensal_sem_ir := pre_cupom_mensal_sem_ir form in
  if negb (taxa_com_ir =? 0) || negb (taxa_sem_ir =? 0) then
    resultados <~ chamar (calcular_resultados c investimento
                            taxa_com_ir cupom_mensal_com_ir
                            taxa_sem_ir cupom_mensal_sem_ir) ;;
    df <~ exibir_resultados resultados (periodo_anos investimento)
            (investimento_inicial investimento)
            cupom_mensal_com_ir cupom_mensal_sem_ir taxa_com_ir taxa_sem_ir ;;
    ui_ret (Some df)
  else
    ui_ret None.

Record FormPos : Type := {
  pos_cdi_anual : float;
  pos_percentual_cdi_com_ir : float;
  pos_cupom_mensal_com_ir : bool;
  pos_percentual_cdi_sem_ir : float;
  pos_cupom_mensal_sem_ir : bool
}.

(** [exibir_pos_fixado]: each rate is the CDI times the share of the CDI. *)
Definition exibir_pos_fixado (c : Classe) (investimento : Investimento)
    (form : FormPos) : UI (option DataFrame) :=
  _ <~ emitir (Title "Pós Fixado") ;;
  let cdi_anual := pos_cdi_anual form / 100 in
  let percentual_cdi_com_ir := pos_percentual_cdi_com_ir form / 100 in
  let cupom_mensal_com_ir := pos_cupom_mensal_com_ir form in
  let percentual_cdi_sem_ir := pos_percentual_cdi_sem_ir form / 100 in
  let cupom_mensal_sem_ir := pos_cupom_mensal_sem_ir form in
  if negb (cdi_anual =? 0)
     && (negb (percentual_cdi_com_ir =? 0)
         || negb (percentual_cdi_sem_ir =? 0)) then
    let taxa_com_ir := cdi_anual * percentual_cdi_com_ir in
    let taxa_sem_ir := cdi_anual * percentual_cdi_sem_ir in
    resultados <~ chamar (calcular_resultados c investimento
                            taxa_com_ir cupom_mensal_com_ir
                            taxa_sem_ir cupom_mensal_sem_ir) ;;
    df <~ exibir_resultados resultados (periodo_anos investimento)
            (investimento_inicial investimento)
            cupom_mensal_com_ir cupom_mensal_sem_ir taxa_com_ir taxa_sem_ir ;;
    ui_ret (Some df)
  else
    ui_ret None.

Record FormInf : Type := {
  inf_inflacao_anual : float;
  inf_taxa_com_ir : float;
  inf_cupom_mensal_com_ir : bool;
  inf_taxa_sem_ir : float;
  inf_cupom_mensal_sem_ir : bool
}.

(** [exibir_inflacao]: the engine gets inflation plus the rate entered; the
    table is given the rate entered. *)
Definition exibir_inflacao (c : Classe) (investimento : Investimento)
    (form : FormInf) : UI (option DataFrame) :=
  _ <~ emitir (Title "Inflação") ;;
  let inflacao_anual := inf_inflacao_anual form / 100 in
  let taxa_com_ir := inf_taxa_com_ir form / 100 in
  let cupom_mensal_com_ir := inf_cupom_mensal_com_ir form in
  let taxa_sem_ir := inf_taxa_sem_ir form / 100 in
  let cupom_mensal_sem_ir := inf_cupom_mensal_sem_ir form in
  if negb (inflacao_anual =? 0)
     && (negb (taxa_com_ir =? 0) || negb (taxa_sem_ir =? 0)) then
    let taxa_efetiva_com_ir := inflacao_anual + taxa_com_ir in
    let taxa_efetiva_sem_ir := inflacao_anual + taxa_sem_ir in
    resultados <~ chamar (calcular_resultados c investimento
                            taxa_efetiva_com_ir cupom_mensal_com_ir
                            taxa_efetiva_sem_ir cupom_mensal_sem_ir) ;;
    df <~ exibir_resultados resultados (periodo_anos investimento)
            (investimento_inicial investimento)
            cupom_mensal_com_ir cupom_mensal_sem_ir taxa_com_ir taxa_sem_ir ;;
    ui_ret (Some df)
  else
    ui_ret None.

(** What one run of [main] reads: the two sidebar numbers, the choice of
    the radio button, the year each of the three constructors reads from
    the clock, and the three forms. *)
Record Entrada : Type := {
  valor_investido : float;
  ano_de_vencimento : Z;
  escolha : string;
  ano_lido_pre : Z;
  ano_lido_pos : Z;
  ano_lido_inf : Z;
  form_pre : FormPre;
  form_pos : FormPos;
  form_inf : FormInf
}.

(** [main]. *)
Definition main (entrada : Entrada) : UI unit :=
  _ <~ emitir (SidebarTitle "Comparador de Renda Fixa") ;;
  _ <~ emitir (SidebarMarkdown "---") ;;
  _ <~ emitir (SidebarSubheader "Dados de Entrada") ;;
  let investimento_inicial := valor_investido entrada in
  let vencimento_ano := ano_de_vencimento entrada in
  _ <~ emitir (SidebarMarkdown "---") ;;
  let resultados_investimentos : list (string * option DataFrame) := [] in
  let investimento_pre :=
    construtor ClasseInvestimentoPreFixado investimento_inicial
               vencimento_ano (ano_lido_pre entrada) in
  let investimento_pos :=
    construtor ClasseInvestimentoPosFixado investimento_inicial
               vencimento_ano (ano_lido_pos entrada) in
  let investimento_inf :=
    construtor ClasseInvestimentoInflacao investimento_inicial
               vencimento_ano (ano_lido_inf entrada) in
  if String.eqb (escolha entrada) "Pré-fixado" then
    _ <~ exibir_pre_fixado ClasseInvestimentoPreFixado investimento_pre
           (form_pre entrada) ;;
    ui_ret tt
  else if String.eqb (escolha entrada) "Pós Fixado" then
    _ <~ exibir_pos_fixado ClasseInvestimentoPosFixado investimento_pos
           (form_pos entrada) ;;
    ui_ret tt
  else if String.eqb (escolha entrada) "Inflação" then
    _ <~ exibir_inflacao ClasseInvestimentoInflacao investimento_inf
           (form_inf entrada) ;;
    ui_ret tt
  else if String.eqb (escolha entrada) "Resumo" then
    exibir_resumo resultados_investimentos
  else
    ui_ret tt.

End Views.

(** The three ways a run of a view can end: nothing computed, a table
    displayed and returned, or an exception of the engine before any
    table. *)
Inductive fim_da_view (titulo : string) : UI (option DataFrame) -> Prop :=
| FimSemCalculo :
    fim_da_view titulo ([Title titulo], Retorna None)
| FimComTabela (df : DataFrame) :
    df_index df = [CelTexto "Com IR"; CelTexto "Sem IR"] ->
    fim_da_view titulo ([Title titulo; Table df], Retorna (Some df))
| FimComErro (e : exn) :
    fim_da_view titulo ([Title titulo], Levanta (ErroCalculo e)).

End Binary64Views.

(** * Properties *)

(** ** The tax bracket *)

Section Aliquota.

Variable self : Investimento.

Lemma aliquota_ate_6 (m : Z) :
  (m <= 6)%Z -> calcular_aliquota_ir self m = 0.225.
Proof.
  intros Hm. unfold calcular_aliquota_ir.
  destruct (Z.leb_spec m 6) as [_ | Hgt]; [reflexivity | lia].
Qed.

Lemma aliquota_7_a_12 (m : Z) :
  (7 <= m <= 12)%Z -> calcular_aliquota_ir self m = 0.20.
Proof.
  intros [Hlo Hhi]. unfold calcular_aliquota_ir.
  destruct (Z.leb_spec m 6); [lia |].
  destruct (Z.leb_spec m 12); [reflexivity | lia].
Qed.

Lemma aliquota_13_a_24 (m : Z) :
  (13 <= m <= 24)%Z -> calcular_aliquota_ir self m = 0.175.
Proof.
  intros [Hlo Hhi]. unfold calcular_aliquota_ir.
  destruct (Z.leb_spec m 6); [lia |].
  destruct (Z.leb_spec m 12); [lia |].
  destruct (Z.leb_spec m 24); [reflexivity | lia].
Qed.

Lemma aliquota_acima_de_24 (m : Z) :
  (24 < m)%Z -> calcular_aliquota_ir self m = 0.15.
Proof.
  intros Hm. unfold calcular_aliquota_ir.
  destruct (Z.leb_spec m 6); [lia |].
  destruct (Z.leb_spec m 12); [lia |].
  destruct (Z.leb_spec m 24); [lia | reflexivity].
Qed.

(** The four tiers cover the integers. *)
Lemma faixas_cobrem (m : Z) :
  (m <= 6 \/ 7 <= m <= 12 \/ 13 <= m <= 24 \/ 24 < m)%Z.
Proof. lia. Qed.

Lemma aliquota_imagem (m : Z) :
  calcular_aliquota_ir self m = 0.225
  \/ calcular_aliquota_ir self m = 0.20
  \/ calcular_aliquota_ir self m = 0.175
  \/ calcular_aliquota_ir self m = 0.15.
Proof.
  destruct (faixas_cobrem m) as [H | [H | [H | H]]].
  - left. now apply aliquota_ate_6.
  - right; left. now apply aliquota_7_a_12.
  - right; right; left. now apply aliquota_13_a_24.
  - right; right; right. now apply aliquota_acima_de_24.
Qed.

(** Longer holding never raises the bracket, over all the integers. *)
Lemma aliquota_decrescente (m1 m2 : Z) :
  (m1 <= m2)%Z ->
  calcular_aliquota_ir self m2 <= calcular_aliquota_ir self m1.
Proof.
  intros Hle. unfold calcular_aliquota_ir.
  destruct (Z.leb_spec m1 6), (Z.leb_spec m1 12), (Z.leb_spec m1 24),
           (Z.leb_spec m2 6), (Z.leb_spec m2 12), (Z.leb_spec m2 24);
    try lia; unfold Qle; simpl; lia.
Qed.

(** Every bracket lies strictly between 0 and 1. *)
Lemma aliquota_entre_0_e_1 (m : Z) :
  0 < calcular_aliquota_ir self m /\ calcular_aliquota_ir self m < 1.
Proof.
  destruct (aliquota_imagem m) as [H | [H | [H | H]]];
    rewrite H; split; reflexivity.
Qed.

End Aliquota.

(** The bracket does not read the instance. *)
Lemma aliquota_independe_de_self (self self' : Investimento) (m : Z) :
  calcular_aliquota_ir self m = calcular_aliquota_ir self' m.
Proof. reflexivity. Qed.

(** C3: [calcular_aliquota_ir] is a function of the month count alone (the
    instance it is called on plays no part), and for every non-negative
    integer [m] it returns 0.225 when m <= 6, 0.20 when 7 <= m <= 12, 0.175
    when 13 <= m <= 24 and 0.15 when m > 24; the upper end of each tier is
    inclusive: month 6 gives 0.225, month 12 gives 0.20, month 24 gives
    0.175. *)
Theorem C3_tabela_de_aliquotas (self : Investimento) (m : Z) :
  (0 <= m)%Z ->
  (forall self', calcular_aliquota_ir self' m = calcular_aliquota_ir self m)
  /\ ((m <= 6)%Z -> calcular_aliquota_ir self m = 0.225)
  /\ ((7 <= m <= 12)%Z -> calcular_aliquota_ir self m = 0.20)
  /\ ((13 <= m <= 24)%Z -> calcular_aliquota_ir self m = 0.175)
  /\ ((24 < m)%Z -> calcular_aliquota_ir self m = 0.15)
  /\ calcular_aliquota_ir self 6 = 0.225
  /\ calcular_aliquota_ir self 12 = 0.20
  /\ calcular_aliquota_ir self 24 = 0.175.
Proof.
  intros _. split; [intros self'; apply aliquota_independe_de_self |].
  split; [apply aliquota_ate_6 |].
  split; [apply aliquota_7_a_12 |].
  split; [apply aliquota_13_a_24 |].
  split; [apply aliquota_acima_de_24 |].
  repeat split.
Qed.

(** The values the specification lists, months 1, 6, 7, 12, 13, 24, 25 and
    100, read off the theorem. *)
Lemma C3_witness :
  let self := __init__ 50000 2028 2026 in
  calcular_aliquota_ir self 1 = 0.225
  /\ calcular_aliquota_ir self 6 = 0.225
  /\ calcular_aliquota_ir self 7 = 0.20
  /\ calcular_aliquota_ir self 12 = 0.20
  /\ calcular_aliquota_ir self 13 = 0.175
  /\ calcular_aliquota_ir self 24 = 0.175
  /\ calcular_aliquota_ir self 25 = 0.15
  /\ calcular_aliquota_ir self 100 = 0.15.
Proof.
  intros self.
  split; [apply (C3_tabela_de_aliquotas self 1); lia |].
  split; [apply (C3_tabela_de_aliquotas self 6); lia |].
  split; [apply (C3_tabela_de_aliquotas self 7); lia |].
  split; [apply (C3_tabela_de_aliquotas self 12); lia |].
  split; [apply (C3_tabela_de_aliquotas self 13); lia |].
  split; [apply (C3_tabela_de_aliquotas self 24); lia |].
  split; [apply (C3_tabela_de_aliquotas self 25); lia |].
  apply (C3_tabela_de_aliquotas self 100); lia.
Defined.

(** C6: the bracket is monotonically non-increasing: for non-negative
    integers m1 <= m2, the bracket of m1 is at least the bracket of m2. *)
Theorem C6_aliquota_nao_crescente (self : Investimento) (m1 m2 : Z) :
  (0 <= m1)%Z -> (m1 <= m2)%Z ->
  calcular_aliquota_ir self m1 >= calcular_aliquota_ir self m2.
Proof.
  intros _ Hle. now apply aliquota_decrescente.
Qed.

Lemma C6_witness :
  let self := __init__ 50000 2028 2026 in
  calcular_aliquota_ir self 6 >= calcular_aliquota_ir self 7.
Proof.
  intros self. apply (C6_aliquota_nao_crescente self 6 7); lia.
Defined.

(** C10: [calcular_aliquota_ir] is defined on every integer, negative ones
    included: every integer [meses <= 6] gets 0.225, and whatever the
    integer the result is one of 0.225, 0.20, 0.175, 0.15. *)
Theorem C10_aliquota_em_todos_os_inteiros (self : Investimento) (meses : Z) :
  ((meses <= 6)%Z -> calcular_aliquota_ir self meses = 0.225)
  /\ (calcular_aliquota_ir self meses = 0.225
      \/ calcular_aliquota_ir self meses = 0.20
      \/ calcular_aliquota_ir self meses = 0.175
      \/ calcular_aliquota_ir self meses = 0.15).
Proof.
  split; [apply aliquota_ate_6 | apply aliquota_imagem].
Qed.

Lemma C10_witness :
  let self := __init__ 50000 2020 2026 in
  calcular_aliquota_ir self (-72) = 0.225.
Proof.
  intros self.
  apply (proj1 (C10_aliquota_em_todos_os_inteiros self (-72))); lia.
Defined.

(** ** Partial operations *)


Lemma py_div_por_zero (a b : Q) : b == 0 -> py_div a b = Raise ZeroDivisionError.
Proof.
  intros Hb. unfold py_div.
  apply Qeq_bool_iff in Hb. now rewrite Hb.
Qed.


Lemma py_pow_zero_negativo (x : Q) (n : Z) :
  (n < 0)%Z -> x == 0 -> py_pow x n = Raise ZeroDivisionError.
Proof.
  intros Hn Hx. unfold py_pow.
  apply Z.ltb_lt in Hn. apply Qeq_bool_iff in Hx.
  now rewrite Hn, Hx.
Qed.

(** ** The coupon loop *)

Lemma py_range_vazio (lo hi : Z) : (hi <= lo)%Z -> py_range lo hi = [].
Proof.
  intros H. unfold py_range.
  replace (Z.to_nat (hi - lo)) with O by lia. reflexivity.
Qed.

(** [range(1, k+1)] for a natural [k]: one more month appends [k+1]. *)
Lemma py_range_sucessor (k : nat) :
  py_range 1 (Z.of_nat (S k) + 1)
  = py_range 1 (Z.of_nat k + 1) ++ [Z.of_nat (S k)].
Proof.
  unfold py_range.
  replace (Z.to_nat (Z.of_nat (S k) + 1 - 1)) with (S k) by lia.
  replace (Z.to_nat (Z.of_nat k + 1 - 1)) with k by lia.
  rewrite seq_S, map_app. cbn [map]. f_equal. f_equal. lia.
Qed.

(** A period that is not positive and the period 0 give the same range. *)
Lemma py_range_meses (M : Z) :
  py_range 1 (M + 1) = py_range 1 (Z.of_nat (Z.to_nat M) + 1).
Proof.
  unfold py_range. f_equal. f_equal. lia.
Qed.

Section Cupom.

Variable self : Investimento.
Variable taxa_anual : Q.

Lemma laco_cupom_soma (k : nat) :
  fold_left (cupom_passo self taxa_anual) (py_range 1 (Z.of_nat k + 1)) 0
  == soma_ate (cupom_do_mes self taxa_anual) k.
Proof.
  induction k as [| k IH].
  - reflexivity.
  - rewrite py_range_sucessor, fold_left_app.
    cbn [fold_left soma_ate]. unfold cupom_passo at 1.
    rewrite IH. unfold cupom_do_mes. ring.
Qed.

Lemma rentabilidade_cupom_soma :
  rentabilidade_cupom self taxa_anual
  == soma_meses (cupom_do_mes self taxa_anual) (periodo_meses self).
Proof.
  unfold rentabilidade_cupom, soma_meses.
  rewrite py_range_meses. apply laco_cupom_soma.
Qed.

(** The total is linear in the principal and in the rate. *)
Lemma soma_cupom_linear (k : nat) :
  soma_ate (cupom_do_mes self taxa_anual) k
  == investimento_inicial self * taxa_anual / 12
     * soma_ate (fun m => 1 - calcular_aliquota_ir self m) k.
Proof.
  induction k as [| k IH].
  - cbn [soma_ate]. field.
  - cbn [soma_ate]. rewrite IH. unfold cupom_do_mes. field.
Qed.

Lemma rentabilidade_cupom_sem_meses :
  (periodo_meses self <= 0)%Z -> rentabilidade_cupom self taxa_anual = 0.
Proof.
  intros H. unfold rentabilidade_cupom.
  rewrite py_range_vazio by lia. reflexivity.
Qed.

End Cupom.

(** ** Shape of a call that returns *)



(** ** The monthly-coupon strategy *)

(** C4: in the coupon path [tem_ir] is not read: the call with
    [cupom_mensal] true returns the same result (or raises the same error)
    whatever [tem_ir] is, and the net value is the taxed coupon total,
    month by month, for both values of the flag. *)
Theorem C4_tem_ir_sem_efeito_no_cupom (self : Investimento) (taxa_anual : Q)
    (tipo_juros : string) (tem_ir : bool) :
  calcular_rentabilidade self taxa_anual tipo_juros true true
  = calcular_rentabilidade self taxa_anual tipo_juros true false
  /\ rentabilidade_liquida self taxa_anual tipo_juros true tem_ir
     = Ok (rentabilidade_cupom self taxa_anual)
  /\ rentabilidade_cupom self taxa_anual
     == soma_meses
          (fun m => investimento_inicial self * (taxa_anual / 12)
                    * (1 - calcular_aliquota_ir self m))
          (periodo_meses self).
Proof.
  split; [reflexivity |].
  split; [reflexivity |].
  apply rentabilidade_cupom_soma.
Qed.

(** ** The lump-sum strategy *)


(** ** The subclasses *)

(** C9: the three subclasses compute as the base class does: for every
    instance and every tuple of arguments, [calcular_rentabilidade] resolved
    on [InvestimentoPreFixado], [InvestimentoPosFixado] or
    [InvestimentoInflacao] gives the result of the base method; their
    instances are built by the same constructor. *)
Theorem C9_subclasses_calculam_igual (c : Classe) (self : Investimento)
    (taxa_anual : Q) (tipo_juros : string) (cupom_mensal tem_ir : bool) :
  metodo_calcular_rentabilidade c self taxa_anual tipo_juros
                                cupom_mensal tem_ir
  = calcular_rentabilidade self taxa_anual tipo_juros cupom_mensal tem_ir
  /\ construtor c = __init__.
Proof.
  destruct c; split; reflexivity.
Qed.

(** * Further properties of the engine *)

(** ** The constructor and the bracket of a lump sum *)

Lemma periodo_de_init (p : Q) (vencimento agora : Z) :
  periodo_anos (__init__ p vencimento agora) = (vencimento - agora)%Z
  /\ periodo_meses (__init__ p vencimento agora)
     = (12 * (vencimento - agora))%Z.
Proof.
  unfold __init__. cbn [periodo_anos periodo_meses]. split; lia.
Qed.

(** X1: an instance built by [__init__] holds a whole number of years:
    [periodo_meses] is 12 times [periodo_anos], itself the maturity year
    less the current year.  The bracket the lump-sum path reads at
    [periodo_meses] is therefore decided by the years alone: 22.5% up to
    zero years, 20% at one year, 17.5% at two, 15% from three on. *)
Theorem X1_aliquota_por_anos (p : Q) (vencimento agora : Z) :
  let self := __init__ p vencimento agora in
  let n := (vencimento - agora)%Z in
  periodo_anos self = n
  /\ periodo_meses self = (12 * periodo_anos self)%Z
  /\ calcular_aliquota_ir self (periodo_meses self)
     = (if (n <=? 0)%Z then 0.225
        else if (n =? 1)%Z then 0.20
        else if (n =? 2)%Z then 0.175
        else 0.15).
Proof.
  intros self n.
  destruct (periodo_de_init p vencimento agora) as [Hanos Hmeses].
  fold self in Hanos, Hmeses. fold n in Hanos, Hmeses.
  split; [exact Hanos |].
  split; [rewrite Hmeses, Hanos; reflexivity |].
  rewrite Hmeses.
  destruct (Z.leb_spec n 0); [apply aliquota_ate_6; lia |].
  destruct (Z.eqb_spec n 1); [apply aliquota_7_a_12; lia |].
  destruct (Z.eqb_spec n 2); [apply aliquota_13_a_24; lia |].
  apply aliquota_acima_de_24; lia.
Qed.

(** ** A rate of zero *)






(** * Properties of the views *)

(** ** The summary cannot read the tables of the views *)

(** X9: whatever [exibir_resultados] is given, the table it displays and
    returns cannot be summarised: [exibir_resumo] called on a dictionary
    whose first value is that table displays its title and raises
    [KeyError] on the column ["Vencimento"], which the table names
    ["Vencimento (anos)"]; when the first value is [None] (a view that
    computed nothing) it raises [AttributeError].  No summary table is
    displayed in either case. *)
Theorem X9_resumo_nao_le_as_tabelas
    (fmt_moeda fmt_taxa fmt_porcentagem : Q -> string)
    (resultados : Resultados) (anos : Z) (p : Q) (c1 c2 : bool) (t1 t2 : Q)
    (tipo_investimento : string) (resto : list (string * option DataFrame)) :
  exists df,
    exibir_resultados fmt_moeda fmt_taxa fmt_porcentagem
                      resultados anos p c1 c2 t1 t2
    = ([Table df], Retorna df)
    /\ exibir_resumo ((tipo_investimento, Some df) :: resto)
       = ([Title "Resumo"], Levanta (KeyError "Vencimento"))
    /\ exibir_resumo ((tipo_investimento, None) :: resto)
       = ([Title "Resumo"], Levanta (AttributeError "iterrows")).
Proof.
  eexists. split; [reflexivity |]. split; reflexivity.
Qed.

(** * The engine as the interpreter runs it

    From here on every amount and rate is a binary64 float, and the engine
    is the one of [Binary64]. *)

(** ** Rounding

    What the standard library's specification of binary64 ([SpecFloat])
    gives about the rounding every operation ends with: the mantissa never
    turns negative, the result is a valid float, and it is a zero or an
    infinity only when the value lies outside the format. *)

Section Arredondamento.

Local Open Scope Z_scope.

Lemma Zdigits2_nao_negativo (m : Z) : 0 <= Zdigits2 m.
Proof. destruct m; cbn; lia. Qed.

Lemma Zdigits2_positivo (m : Z) : 0 <= m -> (0 < Zdigits2 m <-> 0 < m).
Proof. destruct m; cbn; lia. Qed.

Lemma Zdigits2_dobro (p : positive) :
  Zdigits2 (Z.pos p~0) = Zdigits2 (Z.pos p) + 1
  /\ Zdigits2 (Z.pos p~1) = Zdigits2 (Z.pos p) + 1.
Proof. cbn. lia. Qed.

Lemma shr_1_digitos (r : shr_record) :
  0 <= shr_m r ->
  0 <= shr_m (shr_1 r)
  /\ Zdigits2 (shr_m (shr_1 r)) = Z.max 0 (Zdigits2 (shr_m r) - 1).
Proof.
  destruct r as [m b s]. cbn [shr_m]. intros Hm.
  destruct m as [| p | p]; [cbn; lia | | lia].
  destruct p as [p | p |]; cbn [shr_1 shr_m Zdigits2 digits2_pos]; lia.
Qed.

Lemma iter_shr_1_digitos (k : positive) :
  forall r : shr_record,
    0 <= shr_m r ->
    0 <= shr_m (iter_pos shr_1 k r)
    /\ Zdigits2 (shr_m (iter_pos shr_1 k r))
       = Z.max 0 (Zdigits2 (shr_m r) - Z.pos k).
Proof.
  induction k as [k IH | k IH |]; intros r Hr; cbn [iter_pos].
  - destruct (shr_1_digitos r Hr) as [H1 D1].
    destruct (IH _ H1) as [H2 D2].
    destruct (IH _ H2) as [H3 D3].
    split; [exact H3 |]. rewrite D3, D2, D1. lia.
  - destruct (IH _ Hr) as [H2 D2].
    destruct (IH _ H2) as [H3 D3].
    split; [exact H3 |]. rewrite D3, D2. lia.
  - apply shr_1_digitos, Hr.
Qed.

Lemma digits2_pos_succ (p : positive) :
  digits2_pos (Pos.succ p) = digits2_pos p
  \/ digits2_pos (Pos.succ p) = Pos.succ (digits2_pos p).
Proof.
  induction p as [p IH | p IH |]; cbn.
  - destruct IH as [-> | ->]; [left | right]; reflexivity.
  - now left.
  - now right.
Qed.

Lemma Zdigits2_sucessor (m : Z) :
  0 <= m ->
  Zdigits2 (m + 1) = Zdigits2 m \/ Zdigits2 (m + 1) = Zdigits2 m + 1.
Proof.
  intros Hm. destruct m as [| p | p]; [now right | | lia].
  replace (Z.pos p + 1) with (Z.pos (Pos.succ p)) by lia.
  cbn [Zdigits2].
  destruct (digits2_pos_succ p) as [-> | ->]; [now left | right; lia].
Qed.

Lemma round_nearest_even_casos (m : Z) (l : location) :
  round_nearest_even m l = m \/ round_nearest_even m l = m + 1.
Proof.
  destruct l as [| c]; cbn; [now left |].
  destruct c; [destruct (Z.even m) | |]; auto.
Qed.

Lemma shr_m_de_loc (m : Z) (l : location) :
  shr_m (shr_record_of_loc m l) = m.
Proof. destruct l as [| []]; reflexivity. Qed.

Lemma fexp_valor (x : Z) : fexp prec emax x = Z.max (x - 53) (-1074).
Proof. reflexivity. Qed.

(** What [shr_fexp] leaves: a mantissa that is not negative; when the
    exponent is at or below the format's, the format's exponent and the
    digits that fit it. *)
Lemma shr_fexp_digitos (m e : Z) (l : location) :
  0 <= m ->
  e <= fexp prec emax (Zdigits2 m + e) ->
  0 <= shr_m (fst (shr_fexp prec emax m e l))
  /\ snd (shr_fexp prec emax m e l) = fexp prec emax (Zdigits2 m + e)
  /\ Zdigits2 (shr_m (fst (shr_fexp prec emax m e l)))
     = Z.max 0 (Zdigits2 m + e - fexp prec emax (Zdigits2 m + e))
  /\ (fexp prec emax (Zdigits2 m + e) = e ->
      shr_m (fst (shr_fexp prec emax m e l)) = m).
Proof.
  intros Hm He. unfold shr_fexp, shr.
  pose proof (Zdigits2_nao_negativo m) as Hd.
  destruct (fexp prec emax (Zdigits2 m + e) - e) as [| k | k] eqn:Hk.
  - cbn [fst snd]. rewrite shr_m_de_loc.
    repeat split; try lia.
  - cbn [fst snd].
    destruct (iter_shr_1_digitos k (shr_record_of_loc m l)) as [H1 D1].
    { now rewrite shr_m_de_loc. }
    rewrite shr_m_de_loc in D1.
    repeat split; try lia.
  - lia.
Qed.

(** The mantissa stays non-negative whatever the exponent. *)
Lemma shr_fexp_nao_negativo (m e : Z) (l : location) :
  0 <= m -> 0 <= shr_m (fst (shr_fexp prec emax m e l)).
Proof.
  intros Hm. unfold shr_fexp, shr.
  destruct (fexp prec emax (Zdigits2 m + e) - e) as [| k | k];
    cbn [fst]; try (rewrite shr_m_de_loc; exact Hm).
  apply iter_shr_1_digitos. now rewrite shr_m_de_loc.
Qed.

Lemma binary_round_aux_sinal (s : bool) (m e : Z) (l : location) :
  0 <= m -> Binary64.de_sinal s (binary_round_aux prec emax s m e l).
Proof.
  intros Hm. unfold binary_round_aux.
  pose proof (shr_fexp_nao_negativo m e l Hm) as H1.
  destruct (shr_fexp prec emax m e l) as [r1 e1]. cbn [fst] in H1.
  set (m2 := round_nearest_even (shr_m r1) (loc_of_shr_record r1)).
  assert (H2 : 0 <= m2).
  { unfold m2.
    destruct (round_nearest_even_casos (shr_m r1) (loc_of_shr_record r1))
      as [-> | ->]; lia. }
  pose proof (shr_fexp_nao_negativo m2 e1 loc_Exact H2) as H3.
  destruct (shr_fexp prec emax m2 e1 loc_Exact) as [r3 e3]. cbn [fst] in H3.
  destruct (shr_m r3) as [| p | p]; [reflexivity | | lia].
  destruct (e3 <=? emax - prec); reflexivity.
Qed.

(** Rounding a mantissa at or below the format's exponent: the result is a
    valid float of the sign given; it is not a zero when the value is above
    the least subnormal's exponent, and not infinite when its digits end at
    or below 2^1023. *)
Lemma binary_round_aux_valido (s : bool) (m e : Z) (l : location) :
  0 <= m ->
  e <= fexp prec emax (Zdigits2 m + e) ->
  valid_binary (binary_round_aux prec emax s m e l) = true
  /\ (0 < m -> -1074 < Zdigits2 m + e ->
      forall s', binary_round_aux prec emax s m e l <> S754_zero s')
  /\ (Zdigits2 m + e <= 1023 ->
      forall s', binary_round_aux prec emax s m e l <> S754_infinity s')
  /\ (forall s' m' e',
        binary_round_aux prec emax s m e l = S754_finite s' m' e' ->
        Zdigits2 m + e <= Zdigits2 (Z.pos m') + e').
Proof.
  intros Hm He. unfold binary_round_aux.
  destruct (shr_fexp_digitos m e l Hm He) as (H1 & E1 & D1 & _).
  destruct (shr_fexp prec emax m e l) as [r1 e1]. cbn [fst snd] in H1, E1, D1.
  set (m2 := round_nearest_even (shr_m r1) (loc_of_shr_record r1)).
  assert (H2 : m2 = shr_m r1 \/ m2 = shr_m r1 + 1)
    by apply round_nearest_even_casos.
  assert (H2' : 0 <= m2) by lia.
  assert (D2 : Zdigits2 m2 = Zdigits2 (shr_m r1)
               \/ Zdigits2 m2 = Zdigits2 (shr_m r1) + 1).
  { destruct H2 as [-> | ->]; [now left | now apply Zdigits2_sucessor]. }
  pose proof (Zdigits2_nao_negativo m) as Hd.
  rewrite fexp_valor in *.
  assert (He2 : e1 <= fexp prec emax (Zdigits2 m2 + e1))
    by (rewrite fexp_valor; lia).
  destruct (shr_fexp_digitos m2 e1 loc_Exact H2' He2) as (H3 & E3 & D3 & _).
  destruct (shr_fexp prec emax m2 e1 loc_Exact) as [r3 e3].
  cbn [fst snd] in H3, E3, D3.
  rewrite fexp_valor in *.
  pose proof (Zdigits2_positivo (shr_m r1) H1) as P1.
  pose proof (Zdigits2_positivo m2 H2') as P2.
  pose proof (Zdigits2_positivo (shr_m r3) H3) as P3.
  destruct (shr_m r3) as [| p | p] eqn:Hr3; [| | lia].
  - split; [reflexivity |]. split; [| split].
    + intros Hpos Hmin s' _. cbn [Zdigits2] in *. lia.
    + intros _ s' H. discriminate H.
    + intros s' m' e' H. discriminate H.
  - destruct (e3 <=? emax - prec) eqn:Hlim.
    + split; [| split; [| split]].
      * cbn [valid_binary]. unfold bounded, canonical_mantissa.
        rewrite Hlim, andb_true_r. apply Z.eqb_eq.
        rewrite fexp_valor. cbn [Zdigits2] in D3. lia.
      * intros; discriminate.
      * intros; discriminate.
      * intros s' m' e' H. injection H as _ <- <-. lia.
    + split; [reflexivity |]. split; [intros; discriminate |].
      split; [| intros s' m' e' H; discriminate H].
      intros Hmax s' _. apply Z.leb_gt in Hlim.
      change (emax - prec) with 971 in Hlim. lia.
Qed.

Lemma digits2_pos_iter_xO (m : positive) (k : positive) :
  digits2_pos (Pos.iter xO m k) = (digits2_pos m + k)%positive.
Proof.
  revert m. induction k using Pos.peano_ind; intros m.
  - cbn. lia.
  - rewrite Pos.iter_succ. cbn [digits2_pos]. rewrite IHk. lia.
Qed.

(** Aligning a mantissa keeps its value's position and never leaves the
    exponent above the one asked for. *)
Lemma shl_align_expoente (mx : positive) (ex ex' : Z) :
  snd (shl_align mx ex ex') <= ex'.
Proof.
  unfold shl_align. destruct (ex' - ex) eqn:H; cbn [fst snd]; lia.
Qed.

Lemma shl_align_posicao (mx : positive) (ex ex' : Z) :
  Zdigits2 (Z.pos (fst (shl_align mx ex ex'))) + snd (shl_align mx ex ex')
  = Zdigits2 (Z.pos mx) + ex.
Proof.
  unfold shl_align. destruct (ex' - ex) eqn:H; cbn [fst snd]; try reflexivity.
  cbn [Zdigits2]. rewrite digits2_pos_iter_xO. lia.
Qed.

(** [binary_round]: a valid float of the sign given; not a zero when the
    value is above the least subnormal's exponent, not infinite when its
    digits end at or below 2^1023. *)
Lemma binary_round_valido (s : bool) (mx : positive) (ex : Z) :
  valid_binary (binary_round prec emax s mx ex) = true
  /\ Binary64.de_sinal s (binary_round prec emax s mx ex)
  /\ (-1074 < Zdigits2 (Z.pos mx) + ex ->
      forall s', binary_round prec emax s mx ex <> S754_zero s')
  /\ (Zdigits2 (Z.pos mx) + ex <= 1023 ->
      forall s', binary_round prec emax s mx ex <> S754_infinity s')
  /\ (forall s' m' e',
        binary_round prec emax s mx ex = S754_finite s' m' e' ->
        Zdigits2 (Z.pos mx) + ex <= Zdigits2 (Z.pos m') + e').
Proof.
  unfold binary_round.
  pose proof (shl_align_posicao mx ex
                (fexp prec emax (Z.pos (digits2_pos mx) + ex))) as Hp.
  pose proof (shl_align_expoente mx ex
                (fexp prec emax (Z.pos (digits2_pos mx) + ex))) as Hd.
  destruct (shl_align mx ex (fexp prec emax (Z.pos (digits2_pos mx) + ex)))
    as [mz ez].
  cbn [fst snd] in Hp, Hd.
  assert (He : ez <= fexp prec emax (Zdigits2 (Z.pos mz) + ez))
    by (rewrite Hp; exact Hd).
  destruct (binary_round_aux_valido s (Z.pos mz) ez loc_Exact)
    as (V & N0 & I0 & P0); [lia | exact He |].
  split; [exact V |].
  split; [apply binary_round_aux_sinal; lia |].
  rewrite <- Hp. split; [intros H; apply N0; lia |].
  split; [exact I0 | exact P0].
Qed.

Lemma digits2_pos_size (p : positive) : digits2_pos p = Pos.size p.
Proof. induction p as [p IH | p IH |]; cbn; now rewrite ?IH. Qed.

Lemma Zdigits2_limite (p : positive) (k : Z) :
  0 <= k -> Z.pos p < 2 ^ k -> Zdigits2 (Z.pos p) <= k.
Proof.
  intros Hk Hp. cbn [Zdigits2]. rewrite digits2_pos_size.
  pose proof (Pos.size_le p) as Hs.
  assert (H : 2 ^ Z.pos (Pos.size p) < 2 ^ (k + 1)).
  { rewrite <- Pos2Z.inj_pow. rewrite Z.pow_add_r, Z.pow_1_r by lia.
    apply Z.le_lt_trans with (Z.pos p~0); [exact Hs | lia]. }
  apply Z.pow_lt_mono_r_iff in H; lia.
Qed.

(** The float of a whole number: valid; a zero for 0; otherwise of the
    number's sign, not a zero and at least 1 in magnitude; finite below
    2^1023 in magnitude. *)
Lemma binary_normalize_inteiro (n : Z) :
  valid_binary (binary_normalize prec emax n 0 false) = true
  /\ (n = 0 -> binary_normalize prec emax n 0 false = S754_zero false)
  /\ (n <> 0 ->
      (exists m e, binary_normalize prec emax n 0 false
                   = S754_finite (n <? 0) m e
                   /\ 1 <= Zdigits2 (Z.pos m) + e)
      \/ binary_normalize prec emax n 0 false = S754_infinity (n <? 0))
  /\ (Z.abs n < 2 ^ 1023 ->
      forall s, binary_normalize prec emax n 0 false <> S754_infinity s).
Proof.
  assert (R : forall (s : bool) (p : positive),
             (exists m e, binary_round prec emax s p 0 = S754_finite s m e
                          /\ 1 <= Zdigits2 (Z.pos m) + e)
             \/ binary_round prec emax s p 0 = S754_infinity s).
  { intros s p.
    destruct (binary_round_valido s p 0) as (_ & S & N0 & _ & P0).
    destruct (binary_round prec emax s p 0) as [s' | s' | | s' m e];
      cbn in S; try contradiction; subst.
    - exfalso. apply (N0 ltac:(cbn [Zdigits2]; lia) s). reflexivity.
    - now right.
    - left. exists m, e. split; [reflexivity |].
      specialize (P0 s m e eq_refl). cbn [Zdigits2] in *. lia. }
  destruct n as [| p | p]; cbn [binary_normalize].
  - repeat split; try lia; intros; discriminate.
  - destruct (binary_round_valido false p 0) as (V & _ & _ & I0 & _).
    split; [exact V |]. split; [lia |]. split.
    + intros _. apply (R false p).
    + intros Hn. apply I0. rewrite Z.add_0_r.
      apply Zdigits2_limite; lia.
  - destruct (binary_round_valido true p 0) as (V & _ & _ & I0 & _).
    split; [exact V |]. split; [lia |]. split.
    + intros _. apply (R true p).
    + intros Hn. apply I0. rewrite Z.add_0_r.
      apply Zdigits2_limite; lia.
Qed.

(** The digits of a product. *)
Lemma Zdigits2_minimo (p : positive) : 2 ^ (Zdigits2 (Z.pos p) - 1) <= Z.pos p.
Proof.
  cbn [Zdigits2]. rewrite digits2_pos_size.
  pose proof (Pos.size_le p) as Hs.
  assert (H : 2 ^ Z.pos (Pos.size p) <= 2 * Z.pos p).
  { rewrite <- Pos2Z.inj_pow. exact Hs. }
  replace (Z.pos (Pos.size p)) with (1 + (Z.pos (Pos.size p) - 1)) in H by lia.
  rewrite Z.pow_add_r, Z.pow_1_r in H by lia. lia.
Qed.

Lemma Zdigits2_maximo (p : positive) : Z.pos p < 2 ^ Zdigits2 (Z.pos p).
Proof.
  cbn [Zdigits2]. rewrite digits2_pos_size, <- Pos2Z.inj_pow.
  apply Pos.size_gt.
Qed.

Lemma Zdigits2_produto (a b : positive) :
  Zdigits2 (Z.pos a) + Zdigits2 (Z.pos b) - 1 <= Zdigits2 (Z.pos (a * b)).
Proof.
  pose proof (Zdigits2_minimo a) as Ha.
  pose proof (Zdigits2_minimo b) as Hb.
  pose proof (Zdigits2_maximo (a * b)) as Hab.
  assert (Da : 1 <= Zdigits2 (Z.pos a)) by (cbn [Zdigits2]; lia).
  assert (Db : 1 <= Zdigits2 (Z.pos b)) by (cbn [Zdigits2]; lia).
  assert (H : 2 ^ (Zdigits2 (Z.pos a) - 1 + (Zdigits2 (Z.pos b) - 1))
              < 2 ^ Zdigits2 (Z.pos (a * b))).
  { rewrite Z.pow_add_r by lia.
    apply Z.le_lt_trans with (Z.pos (a * b)); [| exact Hab].
    rewrite Pos2Z.inj_mul.
    apply Z.mul_le_mono_nonneg; try assumption;
      apply Z.pow_nonneg; lia. }
  apply Z.pow_lt_mono_r_iff in H; [lia | lia |].
  apply Zdigits2_nao_negativo.
Qed.

(** The product of a finite float and one of at least 1 in magnitude is
    not a zero. *)
Lemma SFmul_nao_zero (sa sb : bool) (ma mb : positive) (ea eb : Z) :
  bounded prec emax ma ea = true ->
  bounded prec emax mb eb = true ->
  1 <= Zdigits2 (Z.pos mb) + eb ->
  (exists m e, SF64mul (S754_finite sa ma ea) (S754_finite sb mb eb)
               = S754_finite (xorb sa sb) m e)
  \/ SF64mul (S754_finite sa ma ea) (S754_finite sb mb eb)
     = S754_infinity (xorb sa sb).
Proof.
  unfold bounded, canonical_mantissa. intros Ba Bb Hb.
  apply andb_prop in Ba. destruct Ba as [Ca _]. apply Z.eqb_eq in Ca.
  apply andb_prop in Bb. destruct Bb as [Cb _]. apply Z.eqb_eq in Cb.
  rewrite fexp_valor in Ca, Cb.
  change (Z.pos (digits2_pos ma)) with (Zdigits2 (Z.pos ma)) in Ca.
  change (Z.pos (digits2_pos mb)) with (Zdigits2 (Z.pos mb)) in Cb.
  pose proof (Zdigits2_produto ma mb) as Hd.
  assert (Da : 1 <= Zdigits2 (Z.pos ma)) by (cbn [Zdigits2]; lia).
  unfold SF64mul, SFmul.
  destruct (binary_round_aux_valido (xorb sa sb) (Z.pos (ma * mb)) (ea + eb)
              loc_Exact) as (_ & N0 & _ & _).
  { lia. }
  { rewrite fexp_valor. lia. }
  pose proof (binary_round_aux_sinal (xorb sa sb) (Z.pos (ma * mb)) (ea + eb)
                loc_Exact ltac:(lia)) as S.
  destruct (binary_round_aux prec emax (xorb sa sb) (Z.pos (ma * mb))
              (ea + eb) loc_Exact) as [s | s | | s m e];
    cbn in S; try contradiction; subst.
  - exfalso. apply (N0 ltac:(lia) ltac:(lia) (xorb sa sb)). reflexivity.
  - now right.
  - left. now exists m, e.
Qed.

End Arredondamento.

(** ** Floats seen through their specification *)

Section EmBinary64.

Import Binary64.
Local Open Scope float_scope.
#[local] Set Warnings "-inexact-float".

Lemma SF_um : Prim2SF 1 = S754_finite false 4503599627370496 (-52).
Proof. reflexivity. Qed.

Lemma vezes_2_52 (m : positive) :
  (m * 4503599627370496)%positive = Pos.iter xO m 52.
Proof. rewrite Pos.mul_comm. reflexivity. Qed.

Lemma mul_1_finite (s : bool) (m : positive) (e : Z) :
  bounded prec emax m e = true ->
  SF64mul (S754_finite s m e) (S754_finite false 4503599627370496 (-52))
  = S754_finite s m e.
Proof.
  intros Hb. unfold bounded, canonical_mantissa in Hb.
  apply andb_prop in Hb. destruct Hb as [Hc He].
  apply Z.eqb_eq in Hc. apply Z.leb_le in He.
  unfold SF64mul, SFmul. rewrite xorb_false_r.
  unfold binary_round_aux, shr_fexp.
  rewrite vezes_2_52. cbn [Zdigits2]. rewrite digits2_pos_iter_xO.
  replace (Z.pos (digits2_pos m + 52) + (e + -52))%Z
    with (Z.pos (digits2_pos m) + e)%Z by lia.
  rewrite Hc.
  replace (e - (e + -52))%Z with 52%Z by lia.
  cbn -[Z.add Z.sub fexp digits2_pos].
  replace (e + -52 + 52)%Z with e by lia.
  rewrite Hc, Z.sub_diag. cbn [shr shr_m].
  apply Z.leb_le in He. now rewrite He.
Qed.

(** Multiplying by 1.0 changes no float. *)
Lemma mul_1_r (x : float) : x * 1 = x.
Proof.
  apply Prim2SF_inj. rewrite mul_spec, SF_um.
  pose proof (Prim2SF_valid x) as V.
  destruct (Prim2SF x) as [s | s | | s m e].
  - cbn. now rewrite xorb_false_r.
  - cbn. now rewrite xorb_false_r.
  - reflexivity.
  - now apply mul_1_finite.
Qed.

(** The shapes of a float by what the comparisons say of it. *)
Lemma finito_SF (x : float) :
  finito x ->
  (exists s, Prim2SF x = S754_zero s)
  \/ (exists s m e, Prim2SF x = S754_finite s m e).
Proof.
  unfold finito, is_finite, is_nan, is_infinity.
  rewrite !eqb_spec, abs_spec.
  change (Prim2SF infinity) with (S754_infinity false).
  destruct (Prim2SF x) as [s | s | | s m e]; cbn; intros H.
  - left. now exists s.
  - destruct s; discriminate H.
  - discriminate H.
  - right. now exists s, m, e.
Qed.

Lemma nao_finito_SF (x : float) :
  is_finite x = false ->
  (exists s, Prim2SF x = S754_infinity s) \/ Prim2SF x = S754_nan.
Proof.
  unfold is_finite, is_nan, is_infinity.
  rewrite !eqb_spec, abs_spec.
  change (Prim2SF infinity) with (S754_infinity false).
  destruct (Prim2SF x) as [s | s | | s m e]; cbn; intros H.
  - destruct s; discriminate H.
  - left. now exists s.
  - now right.
  - destruct s; cbn in H;
      rewrite ?Z.compare_refl, ?Pos.compare_cont_refl in H; discriminate H.
Qed.

Lemma positivo_SF (x : float) :
  (0 <? x) = true ->
  (exists m e, Prim2SF x = S754_finite false m e)
  \/ Prim2SF x = S754_infinity false.
Proof.
  rewrite ltb_spec. change (Prim2SF 0) with (S754_zero false).
  destruct (Prim2SF x) as [s | s | | s m e]; cbn.
  - discriminate.
  - destruct s; [discriminate | now right].
  - discriminate.
  - destruct s; [discriminate | left; eauto].
Qed.

Lemma is_nan_SF (x : float) : Prim2SF x = S754_nan -> is_nan x = true.
Proof. intros H. unfold is_nan. rewrite eqb_spec, H. reflexivity. Qed.

Lemma zero_SF (x : float) (s : bool) :
  Prim2SF x = S754_zero s -> (x =? 0) = true.
Proof.
  intros H. rewrite eqb_spec, H. reflexivity.
Qed.

(** A finite float minus itself is 0.0. *)
Lemma sub_diag_finito (x : float) : finito x -> x - x = 0.
Proof.
  intros Hf. apply Prim2SF_inj. rewrite sub_spec.
  change (Prim2SF 0) with (S754_zero false).
  destruct (finito_SF x Hf) as [(s & ->) | (s & m & e & ->)].
  - now destruct s.
  - unfold SF64sub, SFsub. rewrite Z.min_id.
    unfold shl_align. rewrite Z.sub_diag. cbn [fst].
    destruct s; cbn [cond_Zopp];
      rewrite ?Z.sub_diag, ?Z.sub_opp_r, ?Z.add_opp_diag_l; reflexivity.
Qed.

(** 0.0 divided by a float above zero is 0.0. *)
Lemma zero_div_positivo (x : float) : (0 <? x) = true -> 0 / x = 0.
Proof.
  intros H. apply Prim2SF_inj. rewrite div_spec.
  change (Prim2SF 0) with (S754_zero false).
  destruct (positivo_SF x H) as [(m & e & ->) | ->]; reflexivity.
Qed.

Lemma positivo_nao_zero (x : float) : (0 <? x) = true -> (x =? 0) = false.
Proof.
  intros H. rewrite eqb_spec. change (Prim2SF 0) with (S754_zero false).
  destruct (positivo_SF x H) as [(m & e & ->) | ->]; reflexivity.
Qed.

(** The sign of a product by a finite number other than zero. *)
Lemma mul_sinal (a b : float) (sa sb : bool) (m : positive) (e : Z) :
  de_sinal sa (Prim2SF a) ->
  Prim2SF b = S754_finite sb m e ->
  de_sinal (xorb sa sb) (Prim2SF (a * b)).
Proof.
  intros Ha Hb. rewrite mul_spec, Hb.
  destruct (Prim2SF a) as [s | s | | s ma ea]; cbn in Ha; subst;
    try contradiction; cbn [SF64mul SFmul de_sinal]; try reflexivity.
  apply binary_round_aux_sinal. lia.
Qed.

(** The product of two floats above zero is +0.0, above zero or
    +infinity. *)
Lemma mul_positivos (a b : float) :
  (0 <? a) = true -> (0 <? b) = true -> de_sinal false (Prim2SF (a * b)).
Proof.
  intros Ha Hb. rewrite mul_spec.
  destruct (positivo_SF a Ha) as [(ma & ea & ->) | ->];
    destruct (positivo_SF b Hb) as [(mb & eb & ->) | ->];
    cbn [SF64mul SFmul de_sinal xorb]; try reflexivity.
  apply (binary_round_aux_sinal false). lia.
Qed.

Lemma sinal_negativo_nao_positivo (x : float) :
  de_sinal true (Prim2SF x) -> nao_positivo x.
Proof.
  unfold nao_positivo. rewrite leb_spec.
  change (Prim2SF 0) with (S754_zero false).
  destruct (Prim2SF x) as [s | s | | s m e]; cbn; intros H; subst;
    first [reflexivity | contradiction].
Qed.

(** ** The conversion of the year count *)

Lemma float_of_int_SF (n : Z) (nf : float) :
  float_of_int n = Ok nf ->
  Prim2SF nf = binary_normalize prec emax n 0 false.
Proof.
  unfold float_of_int. intros H.
  destruct (binary_normalize_inteiro n) as (V & _).
  assert (E : nf = SF2Prim (binary_normalize prec emax n 0 false))
    by (destruct (binary_normalize prec emax n 0 false); congruence).
  rewrite E. now apply Prim2SF_SF2Prim.
Qed.

(** The conversion raises nothing but [OverflowError], and only from 2^1023
    on in magnitude. *)
Lemma float_of_int_erro (n : Z) (e : exn) :
  float_of_int n = Raise e ->
  e = OverflowError /\ (2 ^ 1023 <= Z.abs n)%Z.
Proof.
  unfold float_of_int. intros H.
  destruct (binary_normalize_inteiro n) as (_ & _ & _ & I).
  destruct (binary_normalize prec emax n 0 false) as [s | s | | s m e'] eqn:E;
    try discriminate H.
  injection H as <-. split; [reflexivity |].
  destruct (Z.lt_ge_cases (Z.abs n) (2 ^ 1023)) as [Hlt | Hge];
    [| exact Hge].
  exfalso. now apply (I Hlt s).
Qed.

Lemma float_of_int_cabe (n : Z) :
  (Z.abs n < 2 ^ 1023)%Z -> exists nf, float_of_int n = Ok nf.
Proof.
  intros Hn. destruct (float_of_int n) as [nf | e] eqn:E.
  - now exists nf.
  - apply float_of_int_erro in E. lia.
Qed.

(** The float of a whole number has the number's sign, is a zero only for
    0 and is otherwise at least 1 in magnitude. *)
Lemma float_of_int_sinal (n : Z) (nf : float) :
  float_of_int n = Ok nf ->
  (n = 0%Z -> nf = 0)
  /\ (n <> 0%Z ->
      exists m e, Prim2SF nf = S754_finite (n <? 0)%Z m e
                  /\ (1 <= Zdigits2 (Z.pos m) + e)%Z).
Proof.
  intros H. pose proof (float_of_int_SF n nf H) as E.
  unfold float_of_int in H.
  destruct (binary_normalize_inteiro n) as (_ & Z0 & N & _).
  split.
  - intros Hn. apply Prim2SF_inj. rewrite E. now apply Z0.
  - intros Hn. destruct (N Hn) as [(m & e & Hf & Hd) | Hi].
    + exists m, e. now rewrite E.
    + rewrite Hi in H. discriminate H.
Qed.

Lemma float_of_int_eqb_zero (n : Z) (nf : float) :
  float_of_int n = Ok nf -> (nf =? 0) = (n =? 0)%Z.
Proof.
  intros H. destruct (float_of_int_sinal n nf H) as (Z0 & N).
  rewrite eqb_spec. change (Prim2SF 0) with (S754_zero false).
  destruct (Z.eqb_spec n 0) as [Hn | Hn].
  - now rewrite (Z0 Hn).
  - destruct (N Hn) as (m & e & -> & _). now destruct (n <? 0)%Z.
Qed.

Lemma float_of_int_ltb_zero (n : Z) (nf : float) :
  float_of_int n = Ok nf ->
  (nf <? 0) = (n <? 0)%Z /\ (0 <? nf) = (0 <? n)%Z.
Proof.
  intros H. destruct (float_of_int_sinal n nf H) as (Z0 & N).
  rewrite !ltb_spec. change (Prim2SF 0) with (S754_zero false).
  destruct (Z.eq_dec n 0) as [Hn | Hn].
  - rewrite (Z0 Hn). subst n. split; reflexivity.
  - destruct (N Hn) as (m & e & -> & _).
    destruct (Z.ltb_spec n 0) as [Hlt | Hge]; cbn; split; try reflexivity;
      symmetry; [apply Z.ltb_ge | apply Z.ltb_lt]; lia.
Qed.

(** The product of a finite float other than zero and the float of a whole
    number other than zero is not a zero. *)
Lemma mul_por_inteiro (a nf : float) (n : Z) (sa : bool) (ma : positive)
    (ea : Z) :
  Prim2SF a = S754_finite sa ma ea ->
  float_of_int n = Ok nf -> n <> 0%Z ->
  (exists m e, Prim2SF (a * nf) = S754_finite (xorb sa (n <? 0)%Z) m e)
  \/ Prim2SF (a * nf) = S754_infinity (xorb sa (n <? 0)%Z).
Proof.
  intros Ha Hnf Hn.
  destruct (float_of_int_sinal n nf Hnf) as (_ & N).
  destruct (N Hn) as (mb & eb & Hb & Hd).
  pose proof (Prim2SF_valid a) as Va. rewrite Ha in Va.
  pose proof (Prim2SF_valid nf) as Vb. rewrite Hb in Vb.
  rewrite mul_spec, Ha, Hb.
  now apply SFmul_nao_zero.
Qed.

(** ** Shape of a call *)

Section Chamada.

Variable libm_pow : float -> float -> float.
Variable self : Investimento.
Variable taxa_anual : float.
Variable tipo_juros : string.
Variables cupom_mensal tem_ir : bool.

Lemma chamada_retorna (liquida : float) :
  rentabilidade_liquida libm_pow self taxa_anual tipo_juros cupom_mensal
                        tem_ir = Ok liquida ->
  (investimento_inicial self =? 0) = false ->
  calcular_rentabilidade libm_pow self taxa_anual tipo_juros cupom_mensal
                         tem_ir
  = Ok {| valor := liquida;
          porcentagem := liquida / investimento_inicial self * 100 |}.
Proof.
  intros Hliq Hp. unfold calcular_rentabilidade, py_div.
  rewrite Hliq. cbn [bind]. rewrite Hp. reflexivity.
Qed.

Lemma chamada_divide_por_zero (liquida : float) :
  rentabilidade_liquida libm_pow self taxa_anual tipo_juros cupom_mensal
                        tem_ir = Ok liquida ->
  (investimento_inicial self =? 0) = true ->
  calcular_rentabilidade libm_pow self taxa_anual tipo_juros cupom_mensal
                         tem_ir
  = Raise ZeroDivisionError.
Proof.
  intros Hliq Hp. unfold calcular_rentabilidade, py_div.
  rewrite Hliq. cbn [bind]. rewrite Hp. reflexivity.
Qed.

Lemma chamada_propaga (e : exn) :
  rentabilidade_liquida libm_pow self taxa_anual tipo_juros cupom_mensal
                        tem_ir = Raise e ->
  calcular_rentabilidade libm_pow self taxa_anual tipo_juros cupom_mensal
                         tem_ir
  = Raise e.
Proof.
  intros Hliq. unfold calcular_rentabilidade. now rewrite Hliq.
Qed.

End Chamada.


(** ** What a zero and a NaN turn into on the way out *)

Lemma um_menos_aliquota_SF (self : Investimento) (meses : Z) :
  exists m e,
    Prim2SF (1 - calcular_aliquota_ir self meses) = S754_finite false m e.
Proof.
  unfold calcular_aliquota_ir.
  destruct (meses <=? 6)%Z; [| destruct (meses <=? 12)%Z;
                               [| destruct (meses <=? 24)%Z]];
    eexists; eexists; reflexivity.
Qed.

Lemma zero_vezes_positivo (z c : float) (s : bool) (m : positive) (e : Z) :
  Prim2SF z = S754_zero s ->
  Prim2SF c = S754_finite false m e ->
  Prim2SF (z * c) = S754_zero s.
Proof.
  intros Hz Hc. rewrite mul_spec, Hz, Hc. cbn. now rewrite xorb_false_r.
Qed.

Lemma zero_sobre_positivo (z p : float) (s : bool) :
  Prim2SF z = S754_zero s -> (0 <? p) = true ->
  Prim2SF (z / p) = S754_zero s.
Proof.
  intros Hz Hp. rewrite div_spec, Hz.
  destruct (positivo_SF p Hp) as [(m & e & ->) | ->]; cbn;
    now rewrite xorb_false_r.
Qed.

Lemma nan_vezes (x c : float) :
  Prim2SF x = S754_nan -> Prim2SF (x * c) = S754_nan.
Proof. intros H. rewrite mul_spec, H. reflexivity. Qed.

Lemma nan_sobre (x p : float) :
  Prim2SF x = S754_nan -> Prim2SF (x / p) = S754_nan.
Proof. intros H. rewrite div_spec, H. reflexivity. Qed.

(** A finite float times 0.0 is a zero; an infinite one or a NaN times 0.0
    is NaN. *)
Lemma finito_vezes_zero (x : float) :
  finito x -> exists s, Prim2SF (x * 0) = S754_zero s.
Proof.
  intros H. rewrite mul_spec. change (Prim2SF 0) with (S754_zero false).
  destruct (finito_SF x H) as [(s & ->) | (s & m & e & ->)];
    eexists; reflexivity.
Qed.

Lemma nao_finito_vezes_zero (x : float) :
  is_finite x = false -> Prim2SF (x * 0) = S754_nan.
Proof.
  intros H. rewrite mul_spec. change (Prim2SF 0) with (S754_zero false).
  destruct (nao_finito_SF x H) as [(s & ->) | ->]; reflexivity.
Qed.

(** ** The coupon loop *)

Section CupomEmOrdem.

Variable self : Investimento.
Variable taxa_anual : float.

Lemma laco_cupom_em_ordem (k : nat) :
  fold_left (cupom_passo self taxa_anual) (py_range 1 (Z.of_nat k + 1)) 0
  = soma_ate (cupom_do_mes self taxa_anual) k.
Proof.
  induction k as [| k IH].
  - reflexivity.
  - rewrite py_range_sucessor, fold_left_app.
    cbn [fold_left soma_ate]. unfold cupom_passo at 1.
    rewrite IH. reflexivity.
Qed.

Lemma rentabilidade_cupom_em_ordem :
  rentabilidade_cupom self taxa_anual
  = soma_meses (cupom_do_mes self taxa_anual) (periodo_meses self).
Proof.
  unfold rentabilidade_cupom, soma_meses.
  rewrite py_range_meses. apply laco_cupom_em_ordem.
Qed.

Lemma rentabilidade_cupom_sem_laco :
  (periodo_meses self <= 0)%Z -> rentabilidade_cupom self taxa_anual = 0.
Proof.
  intros H. unfold rentabilidade_cupom.
  rewrite py_range_vazio by lia. reflexivity.
Qed.

End CupomEmOrdem.

(** With no month to pay and a principal above zero the coupon call returns
    0.0 and 0.0. *)
Lemma cupom_sem_meses (libm_pow : float -> float -> float)
    (self : Investimento) (taxa_anual : float) (tipo_juros : string)
    (tem_ir : bool) :
  (periodo_meses self <= 0)%Z ->
  (0 <? investimento_inicial self) = true ->
  calcular_rentabilidade libm_pow self taxa_anual tipo_juros true tem_ir
  = Ok {| valor := 0; porcentagem := 0 |}.
Proof.
  intros HM Hp.
  rewrite (chamada_retorna libm_pow self taxa_anual tipo_juros true tem_ir 0).
  - now rewrite zero_div_positivo.
  - cbn [rentabilidade_liquida]. now rewrite rentabilidade_cupom_sem_laco.
  - now apply positivo_nao_zero.
Qed.

(** C2, as first stated, gives 7.75 for the example.  Multiplied from left
    to right, as the claim writes it, the product is 7.75; the code
    multiplies the monthly rate by (1 - bracket) first and by the principal
    last, and in binary64 that product is the float next above 7.75, which
    is what the call returns, whatever the C library. *)
Lemma C2_counterexample :
  (1000 * (0.12 / 12) * (1 - 0.225) =? 7.75) = true
  /\ (1000 * (0.12 / 12 * (1 - 0.225)) =? 7.75) = false
  /\ forall (libm_pow : float -> float -> float) (tipo_juros : string)
            (tem_ir : bool),
       exists res,
         calcular_rentabilidade libm_pow
           {| investimento_inicial := 1000; vencimento_ano := 2026;
              ano_atual := 2026; periodo_anos := 0; periodo_meses := 1 |}
           0.12 tipo_juros true tem_ir = Ok res
         /\ valor res = next_up 7.75
         /\ (valor res =? 7.75) = false.
Proof.
  split; [reflexivity |]. split; [reflexivity |].
  intros libm_pow tipo_juros tem_ir.
  eexists. split; [reflexivity |]. split; reflexivity.
Qed.

(** C2 (amended): with [cupom_mensal] true and a principal other than
    zero, the call returns, and its [valor] is the sum over the months
    m = 1..M (M = [periodo_meses]) of p * (r / 12 * (1 - bracket(m))),
    every operation rounded to binary64 and the months added in order from
    0.0; nothing is compounded.  For p = 1000, r = 0.12 and M = 1 the
    [valor] is the float next above 7.75 (7.750000000000001) and does not
    compare equal to 7.75. *)
Theorem C2_cupom_mensal_soma_dos_meses (libm_pow : float -> float -> float)
    (self : Investimento) (taxa_anual : float) (tipo_juros : string)
    (tem_ir : bool) :
  (investimento_inicial self =? 0) = false ->
  exists res,
    calcular_rentabilidade libm_pow self taxa_anual tipo_juros true tem_ir
    = Ok res
    /\ valor res
       = soma_meses
           (fun m => investimento_inicial self
                     * (taxa_anual / 12 * (1 - calcular_aliquota_ir self m)))
           (periodo_meses self)
    /\ porcentagem res = valor res / investimento_inicial self * 100
    /\ (investimento_inicial self = 1000 -> taxa_anual = 0.12 ->
        periodo_meses self = 1%Z ->
        valor res = next_up 7.75 /\ (valor res =? 7.75) = false).
Proof.
  intros Hp. eexists. split.
  { apply chamada_retorna; [reflexivity | exact Hp]. }
  cbn [valor porcentagem].
  split; [apply rentabilidade_cupom_em_ordem |].
  split; [reflexivity |].
  intros Hprincipal Htaxa Hmeses.
  unfold rentabilidade_cupom. rewrite Hmeses.
  change (py_range 1 (1 + 1)) with [1%Z]. cbn [fold_left].
  unfold cupom_passo. rewrite Hprincipal, Htaxa.
  split; reflexivity.
Qed.

(** The specification's example: an instance whose [periodo_meses] is 1
    (no call of [__init__] with whole years produces it; the attribute is
    set directly), principal 1000, rate 0.12. *)
Lemma C2_witness :
  let self := {| investimento_inicial := 1000; vencimento_ano := 2026;
                 ano_atual := 2026; periodo_anos := 0;
                 periodo_meses := 1 |} in
  exists res,
    calcular_rentabilidade (fun x _ => x) self 0.12 "composto" true true
    = Ok res
    /\ valor res = soma_meses (cupom_do_mes self 0.12) 1
    /\ valor res = next_up 7.75.
Proof.
  intros self.
  destruct (C2_cupom_mensal_soma_dos_meses (fun x _ => x) self 0.12
              "composto" true)
    as (res & Hres & Hsoma & _ & Hexemplo).
  - reflexivity.
  - exists res. split; [exact Hres |]. split; [exact Hsoma |].
    apply Hexemplo; reflexivity.
Defined.


(** ** Periods of zero and of negative length *)

Lemma periodo_de_init_em_float (p : float) (vencimento agora : Z) :
  periodo_anos (__init__ p vencimento agora) = (vencimento - agora)%Z
  /\ periodo_meses (__init__ p vencimento agora)
     = (12 * (vencimento - agora))%Z
  /\ investimento_inicial (__init__ p vencimento agora) = p.
Proof.
  unfold __init__. cbn [periodo_anos periodo_meses investimento_inicial].
  repeat split. lia.
Qed.

Lemma py_pow_expoente_zero (libm_pow : float -> float -> float)
    (base : float) :
  py_pow libm_pow base 0 = Ok 1.
Proof. reflexivity. Qed.

(** A gross value that is a zero leaves as a zero of the same sign, taxed
    or not, and so does the percentage. *)
Lemma saida_de_zero (self : Investimento) (bruta : float) (s : bool)
    (tem_ir : bool) (meses : Z) :
  Prim2SF bruta = S754_zero s ->
  (0 <? investimento_inicial self) = true ->
  let liquida :=
    if tem_ir then bruta * (1 - calcular_aliquota_ir self meses)
    else bruta in
  Prim2SF liquida = S754_zero s
  /\ Prim2SF (liquida / investimento_inicial self * 100) = S754_zero s.
Proof.
  intros Hb Hp liquida.
  assert (Hl : Prim2SF liquida = S754_zero s).
  { unfold liquida. destruct tem_ir; [| exact Hb].
    destruct (um_menos_aliquota_SF self meses) as (m & e & Hc).
    now apply (zero_vezes_positivo _ _ _ m e). }
  split; [exact Hl |].
  apply (zero_vezes_positivo _ _ _ 7036874417766400 (-46));
    [| reflexivity].
  now apply zero_sobre_positivo.
Qed.

(** A gross value that is NaN leaves as NaN. *)
Lemma saida_de_nan (self : Investimento) (bruta : float) (tem_ir : bool)
    (meses : Z) :
  Prim2SF bruta = S754_nan ->
  let liquida :=
    if tem_ir then bruta * (1 - calcular_aliquota_ir self meses)
    else bruta in
  Prim2SF liquida = S754_nan
  /\ Prim2SF (liquida / investimento_inicial self * 100) = S754_nan.
Proof.
  intros Hb liquida.
  assert (Hl : Prim2SF liquida = S754_nan).
  { unfold liquida. destruct tem_ir; [| exact Hb]. now apply nan_vezes. }
  split; [exact Hl |].
  now apply nan_vezes, nan_sobre.
Qed.

Lemma tipo_nao_composto (tipo_juros : string) :
  tipo_juros <> "composto"%string ->
  String.eqb tipo_juros "composto" = false.
Proof. intros H. now apply String.eqb_neq. Qed.

(** C5, as first stated, gives 0 for every rate; in the simple regime that
    fails when principal times rate leaves the floats: with the form's
    default principal and a rate of 1.7e308 the product is infinite, times
    the zero years it is NaN, and the call returns NaN twice. *)
Lemma C5_counterexample :
  (0 <? 50000) = true
  /\ finito 50000
  /\ periodo_meses (__init__ 50000 2024 2024) = 0%Z
  /\ forall (libm_pow : float -> float -> float) (tem_ir : bool),
       exists res,
         calcular_rentabilidade libm_pow (__init__ 50000 2024 2024) 1.7e308
                                "simples" false tem_ir = Ok res
         /\ is_nan (valor res) = true
         /\ is_nan (porcentagem res) = true
         /\ (valor res =? 0) = false.
Proof.
  repeat split; try reflexivity.
  intros libm_pow tem_ir.
  destruct tem_ir; eexists; (split; [reflexivity |]);
    repeat split; reflexivity.
Qed.

(** C5 (amended): for a principal above zero and a maturity in the current
    year (zero years, zero months): the coupon call returns 0.0 and 0.0 for
    every rate; the compound call returns 0.0 and 0.0 for every rate when
    the principal is finite; the simple call returns for every rate, with a
    zero as value and as percentage (equal to 0; -0.0 when the product is
    negative) when principal times rate is finite, and with NaN as value and
    as percentage when that product is infinite or NaN. *)
Theorem C5_periodo_zero (libm_pow : float -> float -> float) (p : float)
    (ano : Z) (taxa_anual : float) (tipo_juros : string) (tem_ir : bool) :
  (0 <? p) = true ->
  let self := __init__ p ano ano in
  periodo_meses self = 0%Z
  /\ calcular_rentabilidade libm_pow self taxa_anual tipo_juros true tem_ir
     = Ok {| valor := 0; porcentagem := 0 |}
  /\ (finito p ->
      calcular_rentabilidade libm_pow self taxa_anual "composto" false tem_ir
      = Ok {| valor := 0; porcentagem := 0 |})
  /\ (tipo_juros <> "composto"%string ->
      exists res,
        calcular_rentabilidade libm_pow self taxa_anual tipo_juros false
                               tem_ir = Ok res
        /\ (finito (p * taxa_anual) ->
            (valor res =? 0) = true /\ (porcentagem res =? 0) = true)
        /\ (is_finite (p * taxa_anual) = false ->
            is_nan (valor res) = true /\ is_nan (porcentagem res) = true)).
Proof.
  intros Hp self.
  destruct (periodo_de_init_em_float p ano ano) as (Ha & Hm & Hi).
  rewrite Z.sub_diag in Ha, Hm. change (12 * 0)%Z with 0%Z in Hm.
  fold self in Ha, Hm, Hi.
  assert (Hp' : (0 <? investimento_inicial self) = true)
    by now rewrite Hi.
  split; [exact Hm |]. split; [| split].
  - apply cupom_sem_meses; [lia | exact Hp'].
  - intros Hfin.
    rewrite (chamada_retorna libm_pow self taxa_anual "composto" false tem_ir
               0).
    + now rewrite zero_div_positivo.
    + cbn [rentabilidade_liquida]. unfold rentabilidade_bruta.
      cbn [String.eqb Ascii.eqb Bool.eqb]. rewrite Ha, py_pow_expoente_zero.
      cbn [bind]. rewrite Hi, mul_1_r, sub_diag_finito by exact Hfin.
      rewrite Hm. now destruct tem_ir.
    + now apply positivo_nao_zero.
  - intros Htipo.
    set (bruta := p * taxa_anual * 0).
    set (liquida := if tem_ir
                    then bruta * (1 - calcular_aliquota_ir self 0)
                    else bruta).
    assert (Hliq : rentabilidade_liquida libm_pow self taxa_anual tipo_juros
                                         false tem_ir = Ok liquida).
    { cbn [rentabilidade_liquida]. unfold rentabilidade_bruta.
      rewrite (tipo_nao_composto _ Htipo), Ha. cbn [float_of_int bind].
      change (float_of_int 0) with (Ok 0). cbn [bind].
      rewrite Hi, Hm. unfold liquida, bruta. now destruct tem_ir. }
    eexists. split.
    { apply chamada_retorna; [exact Hliq | now apply positivo_nao_zero]. }
    cbn [valor porcentagem]. split.
    + intros Hfin. destruct (finito_vezes_zero _ Hfin) as (s & Hz).
      destruct (saida_de_zero self bruta s tem_ir 0 Hz Hp') as (Hv & Hq).
      fold liquida in Hv, Hq.
      split; [exact (zero_SF _ _ Hv) | exact (zero_SF _ _ Hq)].
    + intros Hinf. pose proof (nao_finito_vezes_zero _ Hinf) as Hz.
      destruct (saida_de_nan self bruta tem_ir 0 Hz) as (Hv & Hq).
      fold liquida in Hv, Hq.
      split; [exact (is_nan_SF _ Hv) | exact (is_nan_SF _ Hq)].
Qed.

(** The form's defaults with the maturity in the current year. *)
Lemma C5_witness :
  calcular_rentabilidade (fun x _ => x) (__init__ 50000 2026 2026) 0.15
                         "composto" false true
  = Ok {| valor := 0; porcentagem := 0 |}
  /\ calcular_rentabilidade (fun x _ => x) (__init__ 50000 2026 2026) 0.15
                            "simples" true true
     = Ok {| valor := 0; porcentagem := 0 |}.
Proof.
  destruct (C5_periodo_zero (fun x _ => x) 50000 2026 0.15 "simples" true)
    as (_ & Hcupom & Hcomposto & _).
  - reflexivity.
  - split; [apply Hcomposto; reflexivity | exact Hcupom].
Defined.

(** C7, as first stated, has the simple gross value negative for every
    positive rate; with principal 0.5, the least positive rate and a
    maturity one year back, principal times rate rounds to 0.0 and the gross
    value is -0.0, which is not below zero. *)
Lemma C7_counterexample :
  (0 <? 0.5) = true
  /\ (0 <? 0x1p-1074) = true
  /\ periodo_meses (__init__ 0.5 2023 2024) = (-12)%Z
  /\ forall libm_pow : float -> float -> float,
       rentabilidade_bruta libm_pow (__init__ 0.5 2023 2024) 0x1p-1074
                           "simples" = Ok neg_zero
       /\ (neg_zero <? 0) = false.
Proof.
  repeat split; reflexivity.
Qed.

(** C7 (amended): for a principal above zero and a maturity in the past:
    the coupon call returns 0.0 and 0.0, the loop running no iteration; in
    the simple regime with a rate above zero the gross value
    p * r * years is never above zero and never NaN, it is below zero
    exactly when p * r has not rounded to zero, and it is -0.0 when it has;
    the one case in which no gross value is computed is a year count of
    -2^1023 or below, whose conversion to a float raises
    [OverflowError]. *)
Theorem C7_periodo_negativo (libm_pow : float -> float -> float) (p : float)
    (vencimento agora : Z) (taxa_anual : float) (tipo_juros : string)
    (tem_ir : bool) :
  (0 <? p) = true ->
  (vencimento < agora)%Z ->
  let self := __init__ p vencimento agora in
  (periodo_meses self < 0)%Z
  /\ calcular_rentabilidade libm_pow self taxa_anual tipo_juros true tem_ir
     = Ok {| valor := 0; porcentagem := 0 |}
  /\ (tipo_juros <> "composto"%string ->
      (0 <? taxa_anual) = true ->
      (exists anos bruta,
          float_of_int (vencimento - agora) = Ok anos
          /\ bruta = p * taxa_anual * anos
          /\ rentabilidade_bruta libm_pow self taxa_anual tipo_juros
             = Ok bruta
          /\ nao_positivo bruta
          /\ (bruta <? 0) = negb (p * taxa_anual =? 0)
          /\ ((p * taxa_anual =? 0) = true -> bruta = neg_zero))
      \/ (rentabilidade_bruta libm_pow self taxa_anual tipo_juros
          = Raise OverflowError
          /\ (vencimento - agora <= - 2 ^ 1023)%Z)).
Proof.
  intros Hp Hn self.
  destruct (periodo_de_init_em_float p vencimento agora) as (Ha & Hm & Hi).
  fold self in Ha, Hm, Hi.
  split; [lia |]. split.
  { apply cupom_sem_meses; [lia | now rewrite Hi]. }
  intros Htipo Hr.
  unfold rentabilidade_bruta.
  rewrite (tipo_nao_composto _ Htipo), Ha, Hi.
  destruct (float_of_int (vencimento - agora)) as [anos | e] eqn:Hanos.
  - left. exists anos, (p * taxa_anual * anos).
    split; [reflexivity |]. split; [reflexivity |].
    split; [reflexivity |].
    destruct (float_of_int_sinal _ _ Hanos) as (_ & N).
    destruct (N ltac:(lia)) as (m & e & Hf & Hd).
    replace (vencimento - agora <? 0)%Z with true in Hf
      by (symmetry; apply Z.ltb_lt; lia).
    pose proof (mul_positivos p taxa_anual Hp Hr) as Hs.
    assert (Hg : de_sinal true (Prim2SF (p * taxa_anual * anos)))
      by exact (mul_sinal _ _ false true m e Hs Hf).
    split; [now apply sinal_negativo_nao_positivo |].
    rewrite (eqb_spec (p * taxa_anual)), (ltb_spec (p * taxa_anual * anos)).
    change (Prim2SF 0) with (S754_zero false).
    destruct (Prim2SF (p * taxa_anual)) as [s | s | | s mx ex] eqn:Hx;
      cbn in Hs; try contradiction; subst s.
    + assert (Hz : Prim2SF (p * taxa_anual * anos) = S754_zero true)
        by (rewrite mul_spec, Hx, Hf; reflexivity).
      rewrite Hz. split; [reflexivity |]. intros _.
      now apply Prim2SF_inj.
    + assert (Hz : Prim2SF (p * taxa_anual * anos) = S754_infinity true)
        by (rewrite mul_spec, Hx, Hf; reflexivity).
      rewrite Hz. split; [reflexivity | intros H; discriminate H].
    + destruct (mul_por_inteiro (p * taxa_anual) anos (vencimento - agora)
                  false mx ex Hx Hanos ltac:(lia))
        as [(m' & e' & Hz) | Hz];
        replace (vencimento - agora <? 0)%Z with true in Hz
          by (symmetry; apply Z.ltb_lt; lia);
        rewrite Hz; (split; [reflexivity | intros H; discriminate H]).
  - right. apply float_of_int_erro in Hanos. destruct Hanos as (-> & Habs).
    split; [reflexivity | lia].
Qed.

(** A maturity two years back, simple interest at 10% on 1000. *)
Lemma C7_witness :
  calcular_rentabilidade (fun x _ => x) (__init__ 1000 2024 2026) 0.10
                         "simples" true true
  = Ok {| valor := 0; porcentagem := 0 |}
  /\ exists bruta,
       rentabilidade_bruta (fun x _ => x) (__init__ 1000 2024 2026) 0.10
                           "simples" = Ok bruta
       /\ (bruta <? 0) = true.
Proof.
  destruct (C7_periodo_negativo (fun x _ => x) 1000 2024 2026 0.10 "simples"
              true) as (_ & Hcupom & Hsimples).
  - reflexivity.
  - lia.
  - split; [exact Hcupom |].
    destruct Hsimples as [(anos & bruta & _ & _ & Hb & _ & Hneg & _) | (H & _)].
    + intros H; discriminate H.
    + reflexivity.
    + exists bruta. split; [exact Hb |]. rewrite Hneg. reflexivity.
    + discriminate H.
Defined.


(** ** The power and where it raises *)

Lemma is_infinity_opp (x : float) : is_infinity (- x) = is_infinity x.
Proof.
  unfold is_infinity. rewrite !eqb_spec, !abs_spec, opp_spec.
  now destruct (Prim2SF x).
Qed.

Lemma zero_e_finito (x : float) :
  (x =? 0) = true -> is_nan x = false /\ is_infinity x = false.
Proof.
  unfold is_nan, is_infinity. rewrite !eqb_spec, abs_spec.
  change (Prim2SF 0) with (S754_zero false).
  change (Prim2SF infinity) with (S754_infinity false).
  destruct (Prim2SF x) as [s | s | | s m e]; cbn; intros H;
    try discriminate H; try (destruct s; discriminate H).
  split; reflexivity.
Qed.

Section Potencia.

Variable libm_pow : float -> float -> float.

(** [base ** n] raises in three cases and no other: the exponent does not
    fit a float; the base is a zero and the exponent negative; the base is
    finite, neither a zero nor 1 in magnitude, the exponent is not 0, and
    the C library's result is infinite. *)
Lemma py_pow_levanta (base : float) (n : Z) (e : exn) :
  let modulo := if base <? 0 then - base else base in
  py_pow libm_pow base n = Raise e
  <-> (float_of_int n = Raise OverflowError /\ e = OverflowError)
      \/ ((n < 0)%Z /\ (exists anos, float_of_int n = Ok anos)
          /\ (base =? 0) = true /\ e = ZeroDivisionError)
      \/ (n <> 0%Z /\ is_finite base = true /\ (base =? 0) = false
          /\ (modulo =? 1) = false
          /\ (exists anos, float_of_int n = Ok anos
                           /\ is_infinity (libm_pow modulo anos) = true)
          /\ e = OverflowError).
Proof.
  intros modulo. unfold py_pow.
  destruct (float_of_int n) as [anos | e'] eqn:Hn; cbn [bind].
  - rewrite (float_of_int_eqb_zero _ _ Hn).
    destruct (float_of_int_ltb_zero _ _ Hn) as (Hlt & Hgt).
    rewrite Hlt, Hgt. unfold is_finite.
    destruct (Z.eqb_spec n 0) as [Hz | Hz].
    { split; [intros H; discriminate H |].
      intros [(H & _) | [(H & _) | (H & _)]];
        [discriminate H | lia | contradiction]. }
    destruct (is_nan base) eqn:Hnan.
    { split; [intros H; discriminate H |].
      intros [(H & _) | [(_ & _ & H & _) | (_ & H & _)]];
        [discriminate H | | discriminate H].
      destruct (zero_e_finito _ H) as (H1 & _). congruence. }
    destruct (is_infinity base) eqn:Hinf.
    { split; [destruct (0 <? n)%Z; intros H; discriminate H |].
      intros [(H & _) | [(_ & _ & H & _) | (_ & H & _)]];
        [discriminate H | | discriminate H].
      destruct (zero_e_finito _ H) as (_ & H2). congruence. }
    cbn [orb negb].
    destruct (base =? 0) eqn:Hzero.
    { destruct (Z.ltb_spec n 0) as [Hneg | Hpos].
      - split.
        + intros H. injection H as <-. right. left.
          repeat split; try assumption. now exists anos.
        + intros [(H & _) | [(_ & _ & _ & ->) | (_ & _ & H & _)]];
            [discriminate H | reflexivity | discriminate H].
      - split; [intros H; discriminate H |].
        intros [(H & _) | [(H & _) | (_ & _ & H & _)]];
          [discriminate H | lia | discriminate H]. }
    cbv zeta. fold modulo.
    destruct (modulo =? 1) eqn:Hum.
    { split; [destruct ((base <? 0) && impar n); intros H; discriminate H |].
      intros [(H & _) | [(_ & _ & H & _) | (_ & _ & _ & H & _)]];
        discriminate H. }
    assert (Hsinal : forall c x, is_infinity (if c : bool then - x else x)
                                 = is_infinity x)
      by (intros [] x; [apply is_infinity_opp | reflexivity]).
    rewrite Hsinal.
    destruct (is_infinity (libm_pow modulo anos)) eqn:Hpow.
    + split.
      * intros H. injection H as <-. right. right.
        repeat split; try assumption. now exists anos.
      * intros [(H & _) | [(_ & _ & H & _) | (_ & _ & _ & _ & _ & ->)]];
          [discriminate H | discriminate H | reflexivity].
    + split; [intros H; discriminate H |].
      intros [(H & _) | [(_ & _ & H & _) | (_ & _ & _ & _ & H & _)]];
        [discriminate H | discriminate H |].
      destruct H as (anos' & Ha & Hi). injection Ha as <-. congruence.
  - pose proof (float_of_int_erro _ _ Hn) as (-> & _).
    split.
    + intros H. injection H as <-. now left.
    + intros [(_ & ->) | [(_ & (a & H) & _) | (_ & _ & _ & _ & (a & H & _) & _)]];
        [reflexivity | discriminate H | discriminate H].
Qed.

(** With a finite base above zero and other than 1, and an exponent other
    than 0, the power is the C library's, provided that is not infinite. *)
Lemma py_pow_da_biblioteca (base : float) (n : Z) (anos : float) :
  (0 <? base) = true -> finito base -> (base =? 1) = false ->
  n <> 0%Z -> float_of_int n = Ok anos ->
  is_infinity (libm_pow base anos) = false ->
  py_pow libm_pow base n = Ok (libm_pow base anos).
Proof.
  intros Hpos Hfin Hum Hn Hanos Hpow.
  unfold py_pow. rewrite Hanos. cbn [bind].
  rewrite (float_of_int_eqb_zero _ _ Hanos).
  replace (n =? 0)%Z with false by (symmetry; now apply Z.eqb_neq).
  unfold finito, is_finite in Hfin.
  destruct (is_nan base); [discriminate Hfin |].
  destruct (is_infinity base); [discriminate Hfin |].
  rewrite (positivo_nao_zero _ Hpos).
  assert (Hneg : (base <? 0) = false).
  { rewrite ltb_spec. change (Prim2SF 0) with (S754_zero false).
    destruct (positivo_SF _ Hpos) as [(m & e & ->) | ->]; reflexivity. }
  cbv zeta. rewrite Hneg. cbn [andb]. now rewrite Hum, Hpow.
Qed.

End Potencia.


(** ** The lump-sum strategy *)

Section Montante.

Variable libm_pow : float -> float -> float.
Variable self : Investimento.
Variable taxa_anual : float.
Variable tipo_juros : string.
Variable tem_ir : bool.

(** The net value of a gross one: taxed once at the bracket of the whole
    period, or left as it is. *)
Let liquido (bruta : float) : float :=
  if tem_ir
  then bruta * (1 - calcular_aliquota_ir self (periodo_meses self))
  else bruta.

Lemma liquida_do_montante (bruta : float) :
  rentabilidade_bruta libm_pow self taxa_anual tipo_juros = Ok bruta ->
  rentabilidade_liquida libm_pow self taxa_anual tipo_juros false tem_ir
  = Ok (liquido bruta).
Proof.
  intros H. cbn [rentabilidade_liquida]. rewrite H. cbn [bind].
  unfold liquido. now destruct tem_ir.
Qed.

Lemma liquida_propaga (e : exn) :
  rentabilidade_bruta libm_pow self taxa_anual tipo_juros = Raise e ->
  rentabilidade_liquida libm_pow self taxa_anual tipo_juros false tem_ir
  = Raise e.
Proof.
  intros H. cbn [rentabilidade_liquida]. now rewrite H.
Qed.

Lemma bruta_composta :
  tipo_juros = "composto"%string ->
  rentabilidade_bruta libm_pow self taxa_anual tipo_juros
  = (fator <- py_pow libm_pow (1 + taxa_anual) (periodo_anos self) ;;
     Ok (investimento_inicial self * fator - investimento_inicial self)).
Proof. intros ->. reflexivity. Qed.

Lemma bruta_simples :
  tipo_juros <> "composto"%string ->
  rentabilidade_bruta libm_pow self taxa_anual tipo_juros
  = (anos <- float_of_int (periodo_anos self) ;;
     Ok (investimento_inicial self * taxa_anual * anos)).
Proof.
  intros H. unfold rentabilidade_bruta.
  now rewrite (tipo_nao_composto _ H).
Qed.

(** A lump-sum call raises what the gross value raises; when the gross
    value is computed, the call raises exactly for a principal equal to
    zero. *)
Lemma montante_levanta (e : exn) :
  calcular_rentabilidade libm_pow self taxa_anual tipo_juros false tem_ir
  = Raise e
  <-> rentabilidade_bruta libm_pow self taxa_anual tipo_juros = Raise e
      \/ ((exists bruta,
              rentabilidade_bruta libm_pow self taxa_anual tipo_juros
              = Ok bruta)
          /\ (investimento_inicial self =? 0) = true
          /\ e = ZeroDivisionError).
Proof.
  destruct (rentabilidade_bruta libm_pow self taxa_anual tipo_juros)
    as [bruta | e'] eqn:Hb.
  - pose proof (liquida_do_montante bruta Hb) as Hl.
    destruct (investimento_inicial self =? 0) eqn:Hp.
    + rewrite (chamada_divide_por_zero _ _ _ _ _ _ _ Hl Hp). split.
      * intros H. injection H as <-. right.
        repeat split. now exists bruta.
      * intros [H | (_ & _ & ->)]; [discriminate H | reflexivity].
    + rewrite (chamada_retorna _ _ _ _ _ _ _ Hl Hp). split.
      * intros H. discriminate H.
      * intros [H | (_ & H & _)]; discriminate H.
  - rewrite (chamada_propaga _ _ _ _ _ _ _ (liquida_propaga e' Hb)). split.
    + intros H. injection H as <-. now left.
    + intros [H | ((b & H) & _)];
        [injection H as <-; reflexivity | discriminate H].
Qed.

End Montante.

(** C1, as first stated, promises a returned value for every rate; that
    fails twice.  With rate -1 and a maturity one year back the compound
    branch raises 0.0 to the power -1, and the call raises
    [ZeroDivisionError].  With rate 1 and a maturity 1026 years ahead the
    power 2.0 ** 1026 is beyond the floats: a C library that returns
    infinity for it makes the call raise [OverflowError]. *)
Lemma C1_counterexample :
  (50000 =? 0) = false
  /\ forall libm_pow : float -> float -> float,
       calcular_rentabilidade libm_pow (__init__ 50000 2023 2024) (-1)
                              "composto" false true
       = Raise ZeroDivisionError
       /\ (is_infinity (libm_pow 2 1026) = true ->
           calcular_rentabilidade libm_pow (__init__ 50000 3050 2024) 1
                                  "composto" false true
           = Raise OverflowError).
Proof.
  split; [reflexivity |]. intros libm_pow. split; [reflexivity |].
  intros H. unfold calcular_rentabilidade, rentabilidade_liquida,
    rentabilidade_bruta, py_pow.
  cbn [String.eqb Ascii.eqb Bool.eqb __init__ periodo_anos].
  change (float_of_int (3050 - 2024)) with (Ok 1026).
  cbn [bind]. change (1026 =? 0) with false. change (1 + 1) with 2.
  change (is_nan 2) with false. change (is_infinity 2) with false.
  change (2 =? 0) with false. change (2 <? 0) with false.
  cbv zeta. cbn [andb]. change (2 =? 1) with false.
  now rewrite H.
Qed.

(** C1 (amended): for a principal other than zero, a period of
    n = vencimento - agora years and [cupom_mensal] false, every operation
    rounded to binary64.  Compound regime: when the power (1 + r) ** n
    returns, the call returns and the gross value is
    p * (1 + r) ** n - p; when the power raises, the call raises the same
    error; for a finite 1 + r above zero and other than 1 and n other than
    0, the power is the C library's pow(1 + r, n) when that is not
    infinite, and the call raises [OverflowError] when it is; with 1 + r a
    zero and n negative the call raises [ZeroDivisionError].  Simple
    regime: when the year count fits a float, the call
    returns and the gross value is p * r * n; otherwise it raises
    [OverflowError].  In both, the [valor] returned is the gross value times
    (1 - bracket(12 * n)), the bracket applied once to the whole of it, when
    [tem_ir] is true, and the gross value itself otherwise, and the
    percentage is valor / p * 100. *)
Theorem C1_rentabilidade_sem_cupom (libm_pow : float -> float -> float)
    (p : float) (vencimento agora : Z) (taxa_anual : float)
    (tipo_juros : string) (tem_ir : bool) :
  (p =? 0) = false ->
  let self := __init__ p vencimento agora in
  let n := (vencimento - agora)%Z in
  let liquido (bruto : float) :=
    if tem_ir then bruto * (1 - calcular_aliquota_ir self (12 * n))
    else bruto in
  let retorna (bruto : float) :=
    calcular_rentabilidade libm_pow self taxa_anual tipo_juros false tem_ir
    = Ok {| valor := liquido bruto;
            porcentagem := liquido bruto / p * 100 |} in
  (tipo_juros = "composto"%string ->
   (forall fator, py_pow libm_pow (1 + taxa_anual) n = Ok fator ->
                  retorna (p * fator - p))
   /\ (forall e, py_pow libm_pow (1 + taxa_anual) n = Raise e ->
                 calcular_rentabilidade libm_pow self taxa_anual tipo_juros
                                        false tem_ir = Raise e)
   /\ (forall anos,
         (0 <? 1 + taxa_anual) = true -> finito (1 + taxa_anual) ->
         (1 + taxa_anual =? 1) = false -> n <> 0%Z ->
         float_of_int n = Ok anos ->
         (is_infinity (libm_pow (1 + taxa_anual) anos) = false ->
          retorna (p * libm_pow (1 + taxa_anual) anos - p))
         /\ (is_infinity (libm_pow (1 + taxa_anual) anos) = true ->
             calcular_rentabilidade libm_pow self taxa_anual tipo_juros
                                    false tem_ir = Raise OverflowError))
   /\ ((n < 0)%Z -> (1 + taxa_anual =? 0) = true ->
       (exists anos, float_of_int n = Ok anos) ->
       calcular_rentabilidade libm_pow self taxa_anual tipo_juros false
                              tem_ir = Raise ZeroDivisionError))
  /\ (tipo_juros <> "composto"%string ->
      (forall anos, float_of_int n = Ok anos ->
                    retorna (p * taxa_anual * anos))
      /\ ((Z.abs n < 2 ^ 1023)%Z ->
          exists anos, float_of_int n = Ok anos)
      /\ (forall e, float_of_int n = Raise e ->
                    e = OverflowError
                    /\ calcular_rentabilidade libm_pow self taxa_anual
                                              tipo_juros false tem_ir
                       = Raise e)).
Proof.
  intros Hp self n liquido retorna.
  destruct (periodo_de_init_em_float p vencimento agora) as (Ha & Hm & Hi).
  fold self n in Ha, Hm, Hi.
  assert (Hret : forall bruta,
             rentabilidade_bruta libm_pow self taxa_anual tipo_juros
             = Ok bruta -> retorna bruta).
  { intros bruta Hb. unfold retorna.
    rewrite (chamada_retorna libm_pow self taxa_anual tipo_juros false tem_ir
               (liquido bruta)).
    - now rewrite Hi.
    - rewrite (liquida_do_montante _ _ _ _ _ _ Hb).
      unfold liquido. now rewrite Hm.
    - now rewrite Hi. }
  assert (Herr : forall e,
             rentabilidade_bruta libm_pow self taxa_anual tipo_juros
             = Raise e ->
             calcular_rentabilidade libm_pow self taxa_anual tipo_juros
                                    false tem_ir = Raise e).
  { intros e Hb. apply chamada_propaga. now apply liquida_propaga. }
  split.
  - intros Htipo.
    pose proof (bruta_composta libm_pow self taxa_anual tipo_juros Htipo)
      as Hb.
    rewrite Ha, Hi in Hb.
    assert (Hpot : forall e, py_pow libm_pow (1 + taxa_anual) n = Raise e ->
                             calcular_rentabilidade libm_pow self taxa_anual
                               tipo_juros false tem_ir = Raise e).
    { intros e Hf. apply Herr. now rewrite Hb, Hf. }
    split; [| split; [exact Hpot | split]].
    + intros fator Hf. apply Hret. now rewrite Hb, Hf.
    + intros anos Hpos Hfin Hum Hn Hanos. split; intros Hpow.
      * apply Hret. now rewrite Hb, (py_pow_da_biblioteca _ _ _ anos).
      * apply Hpot. apply py_pow_levanta. cbv zeta.
        assert (Hneg : (1 + taxa_anual <? 0) = false).
        { rewrite ltb_spec. change (Prim2SF 0) with (S754_zero false).
          destruct (positivo_SF _ Hpos) as [(m & e & ->) | ->];
            reflexivity. }
        rewrite Hneg. right. right.
        repeat split; try assumption.
        -- now apply positivo_nao_zero.
        -- now exists anos.
    + intros Hn Hzero Hanos. apply Hpot. apply py_pow_levanta.
      right. left. repeat split; assumption.
  - intros Htipo.
    pose proof (bruta_simples libm_pow self taxa_anual tipo_juros Htipo)
      as Hb.
    rewrite Ha, Hi in Hb.
    split; [| split].
    + intros anos Hanos. apply Hret. now rewrite Hb, Hanos.
    + apply float_of_int_cabe.
    + intros e Hanos. split; [now apply float_of_int_erro in Hanos |].
      apply Herr. now rewrite Hb, Hanos.
Qed.

(** The specification's example: principal 1000, rate 0.10, two years,
    taxed at the 24-month bracket; compound, with a C library that returns
    the rounded square for the exponent 2, and simple. *)
Lemma C1_witness :
  let quadrado (x _ : float) := x * x in
  calcular_rentabilidade quadrado (__init__ 1000 2028 2026) 0.10 "composto"
                         false true
  = Ok {| valor := (1000 * ((1 + 0.10) * (1 + 0.10)) - 1000) * (1 - 0.175);
          porcentagem :=
            (1000 * ((1 + 0.10) * (1 + 0.10)) - 1000) * (1 - 0.175)
            / 1000 * 100 |}
  /\ calcular_rentabilidade quadrado (__init__ 1000 2028 2026) 0.10
                            "simples" false true
     = Ok {| valor := 1000 * 0.10 * 2 * (1 - 0.175);
             porcentagem := 1000 * 0.10 * 2 * (1 - 0.175) / 1000 * 100 |}.
Proof.
  intros quadrado. split.
  - apply (C1_rentabilidade_sem_cupom quadrado 1000 2028 2026 0.10
             "composto" true);
      solve [reflexivity | intros H; discriminate H].
  - apply (C1_rentabilidade_sem_cupom quadrado 1000 2028 2026 0.10
             "simples" true);
      solve [reflexivity | intros H; discriminate H].
Defined.

(** C8, as first stated, has a principal of zero fail by division by zero
    in every mode, and a principal above zero never fail; both fail.  With
    principal 1000, rate -1 and a maturity four years back the compound
    branch raises [ZeroDivisionError] at the power; with principal 0, rate 1
    and a maturity 1026 years ahead, a C library that returns infinity for
    2.0 ** 1026 makes the call raise [OverflowError], before any
    division. *)
Lemma C8_counterexample :
  (0 <? 1000) = true
  /\ (0 =? 0) = true
  /\ forall libm_pow : float -> float -> float,
       calcular_rentabilidade libm_pow (__init__ 1000 2020 2024) (-1)
                              "composto" false false
       = Raise ZeroDivisionError
       /\ (is_infinity (libm_pow 2 1026) = true ->
           calcular_rentabilidade libm_pow (__init__ 0 3050 2024) 1
                                  "composto" false false
           = Raise OverflowError
           /\ calcular_rentabilidade libm_pow (__init__ 1000 3050 2024) 1
                                     "composto" false false
              = Raise OverflowError).
Proof.
  split; [reflexivity |]. split; [reflexivity |].
  intros libm_pow. split; [reflexivity |].
  intros H.
  assert (Hpow : py_pow libm_pow (1 + 1) (3050 - 2024) = Raise OverflowError).
  { unfold py_pow. change (float_of_int (3050 - 2024)) with (Ok 1026).
    cbn [bind]. change (1026 =? 0) with false. change (1 + 1) with 2.
    change (is_nan 2) with false. change (is_infinity 2) with false.
    change (2 =? 0) with false. change (2 <? 0) with false.
    cbv zeta. cbn [andb]. change (2 =? 1) with false.
    now rewrite H. }
  split; unfold calcular_rentabilidade, rentabilidade_liquida,
    rentabilidade_bruta;
    cbn [String.eqb Ascii.eqb Bool.eqb __init__ periodo_anos];
    now rewrite Hpow.
Qed.

(** C8 (amended): the call raises in four cases and no other.  In the
    lump-sum modes: [OverflowError] when the year count does not fit a
    float (never below 2^1023 years in magnitude); in the compound regime
    [ZeroDivisionError] when 1 + rate is a zero and the period negative;
    in the compound regime [OverflowError] when 1 + rate is finite, neither
    a zero nor 1 in magnitude, the period is not zero and the C library's
    pow is infinite.  In every mode, when none of these has raised:
    [ZeroDivisionError] for a principal equal to zero.  So a principal of
    zero always makes the call raise, by division by zero unless an earlier
    line has raised; and a principal other than zero makes the call return
    in the coupon mode, for a period of zero years, and in the simple regime
    up to 2^1023 years. *)
Theorem C8_quando_levanta (libm_pow : float -> float -> float) (p : float)
    (vencimento agora : Z) (taxa_anual : float) (tipo_juros : string)
    (cupom_mensal tem_ir : bool) (e : exn) :
  let self := __init__ p vencimento agora in
  let n := (vencimento - agora)%Z in
  let base := 1 + taxa_anual in
  let modulo := if base <? 0 then - base else base in
  let chamada :=
    calcular_rentabilidade libm_pow self taxa_anual tipo_juros cupom_mensal
                           tem_ir in
  (chamada = Raise e
   <-> (cupom_mensal = false
        /\ float_of_int n = Raise OverflowError /\ e = OverflowError)
       \/ (cupom_mensal = false /\ tipo_juros = "composto"%string
           /\ (n < 0)%Z /\ (exists anos, float_of_int n = Ok anos)
           /\ (base =? 0) = true /\ e = ZeroDivisionError)
       \/ (cupom_mensal = false /\ tipo_juros = "composto"%string
           /\ n <> 0%Z /\ is_finite base = true /\ (base =? 0) = false
           /\ (modulo =? 1) = false
           /\ (exists anos, float_of_int n = Ok anos
                            /\ is_infinity (libm_pow modulo anos) = true)
           /\ e = OverflowError)
       \/ ((p =? 0) = true /\ e = ZeroDivisionError
           /\ (cupom_mensal = true
               \/ exists bruta,
                    rentabilidade_bruta libm_pow self taxa_anual tipo_juros
                    = Ok bruta)))
  /\ ((p =? 0) = true -> exists e', chamada = Raise e')
  /\ ((p =? 0) = false ->
      cupom_mensal = true \/ n = 0%Z
      \/ (tipo_juros <> "composto"%string /\ (Z.abs n < 2 ^ 1023)%Z) ->
      exists res, chamada = Ok res)
  /\ (float_of_int n = Raise OverflowError -> (2 ^ 1023 <= Z.abs n)%Z).
Proof.
  intros self n base modulo chamada.
  destruct (periodo_de_init_em_float p vencimento agora) as (Ha & Hm & Hi).
  fold self n in Ha, Hm, Hi.
  assert (Hbruta : forall e',
             rentabilidade_bruta libm_pow self taxa_anual tipo_juros
             = Raise e'
             <-> (float_of_int n = Raise OverflowError /\ e' = OverflowError)
                 \/ (tipo_juros = "composto"%string
                     /\ (n < 0)%Z /\ (exists anos, float_of_int n = Ok anos)
                     /\ (base =? 0) = true /\ e' = ZeroDivisionError)
                 \/ (tipo_juros = "composto"%string
                     /\ n <> 0%Z /\ is_finite base = true
                     /\ (base =? 0) = false /\ (modulo =? 1) = false
                     /\ (exists anos,
                            float_of_int n = Ok anos
                            /\ is_infinity (libm_pow modulo anos) = true)
                     /\ e' = OverflowError)).
  { intros e'.
    destruct (string_dec tipo_juros "composto") as [Htipo | Htipo].
    - rewrite (bruta_composta _ _ _ _ Htipo), Ha.
      pose proof (py_pow_levanta libm_pow base n e') as Hpow.
      cbv zeta in Hpow. fold modulo in Hpow. fold base.
      destruct (py_pow libm_pow base n) as [fator | e''] eqn:Hf; cbn [bind].
      + split; [intros H; discriminate H |].
        intros H.
        assert (Hc : Ok fator = Raise e') by (apply Hpow; tauto).
        discriminate Hc.
      + rewrite Hpow. tauto.
    - rewrite (bruta_simples _ _ _ _ Htipo), Ha.
      destruct (float_of_int n) as [anos | e''] eqn:Hanos; cbn [bind].
      + split; [intros H; discriminate H |].
        intros [(H & _) | [(H & _) | (H & _)]];
          [discriminate H | contradiction | contradiction].
      + pose proof (float_of_int_erro _ _ Hanos) as (-> & _). split.
        * intros H. injection H as <-. now left.
        * intros [(_ & ->) | [(H & _) | (H & _)]];
            [reflexivity | contradiction | contradiction]. }
  split; [| split; [| split]].
  - unfold chamada. destruct cupom_mensal.
    + split.
      * intros H.
        destruct (investimento_inicial self =? 0) eqn:Hp.
        -- rewrite (chamada_divide_por_zero libm_pow self taxa_anual
                      tipo_juros true tem_ir _ eq_refl Hp) in H.
           injection H as <-. right. right. right.
           rewrite <- Hi. auto.
        -- rewrite (chamada_retorna libm_pow self taxa_anual tipo_juros true
                      tem_ir _ eq_refl Hp) in H.
           discriminate H.
      * intros [(H & _) | [(H & _) | [(H & _) | (Hp & -> & _)]]];
          try discriminate H.
        rewrite <- Hi in Hp.
        apply (chamada_divide_por_zero libm_pow self taxa_anual tipo_juros
                 true tem_ir _ eq_refl Hp).
    + rewrite montante_levanta, Hbruta, Hi. split.
      * intros [[H | [H | H]] | (Hb & Hp & He)].
        -- left. tauto.
        -- right. left. tauto.
        -- right. right. left. tauto.
        -- right. right. right. auto.
      * intros [(_ & H) | [(_ & H) | [(_ & H) | (Hp & He & [H | H])]]];
          [left; left; exact H | left; right; left; exact H
           | left; right; right; exact H | discriminate H
           | right; auto].
  - intros Hp. rewrite <- Hi in Hp. unfold chamada.
    destruct (rentabilidade_liquida libm_pow self taxa_anual tipo_juros
                cupom_mensal tem_ir) as [liquida | e'] eqn:Hl.
    + exists ZeroDivisionError. now apply (chamada_divide_por_zero _ _ _ _ _ _ liquida).
    + exists e'. now apply chamada_propaga.
  - intros Hp Hcaso. rewrite <- Hi in Hp. unfold chamada.
    assert (Hl : exists liquida,
               rentabilidade_liquida libm_pow self taxa_anual tipo_juros
                                     cupom_mensal tem_ir = Ok liquida).
    { destruct cupom_mensal; [eexists; reflexivity |].
      assert (Hb : exists bruta,
                 rentabilidade_bruta libm_pow self taxa_anual tipo_juros
                 = Ok bruta).
      { destruct Hcaso as [H | [H | (Htipo & Hn)]]; [discriminate H | |].
        - unfold rentabilidade_bruta. rewrite Ha, H.
          rewrite py_pow_expoente_zero.
          change (float_of_int 0) with (Ok 0).
          destruct (String.eqb tipo_juros "composto"); eexists; reflexivity.
        - rewrite (bruta_simples _ _ _ _ Htipo), Ha.
          destruct (float_of_int_cabe n Hn) as (anos & ->).
          eexists; reflexivity. }
      destruct Hb as (bruta & Hb). eexists.
      exact (liquida_do_montante libm_pow self taxa_anual tipo_juros tem_ir
               bruta Hb). }
    destruct Hl as (liquida & Hl). eexists.
    now apply (chamada_retorna _ _ _ _ _ _ liquida).
  - intros H. now apply float_of_int_erro in H.
Qed.


(** * Further properties of the engine in binary64 *)

(** ** Flags and subclasses *)

(** X15: on the binary64 engine, as on the exact one: in the coupon path
    [tem_ir] is not read, and the method resolved on any of the four classes
    is the base method, on instances built by the base constructor. *)
Theorem X15_flags_e_subclasses_em_binary64
    (libm_pow : float -> float -> float) (c : Classe) (self : Investimento)
    (taxa_anual : float) (tipo_juros : string) (cupom_mensal tem_ir : bool) :
  calcular_rentabilidade libm_pow self taxa_anual tipo_juros true true
  = calcular_rentabilidade libm_pow self taxa_anual tipo_juros true false
  /\ metodo_calcular_rentabilidade libm_pow c self taxa_anual tipo_juros
                                   cupom_mensal tem_ir
     = calcular_rentabilidade libm_pow self taxa_anual tipo_juros
                              cupom_mensal tem_ir
  /\ construtor c = __init__.
Proof.
  split; [reflexivity |]. destruct c; split; reflexivity.
Qed.

(** ** Which exception, and when none *)

Section Excecoes.

Variable libm_pow : float -> float -> float.
Variable self : Investimento.
Variable taxa_anual : float.
Variable tipo_juros : string.
Variables cupom_mensal tem_ir : bool.

(** A principal equal to zero makes every call raise. *)
Lemma principal_zero_levanta :
  (investimento_inicial self =? 0) = true ->
  exists e,
    calcular_rentabilidade libm_pow self taxa_anual tipo_juros cupom_mensal
                           tem_ir = Raise e.
Proof.
  intros Hp.
  destruct (rentabilidade_liquida libm_pow self taxa_anual tipo_juros
              cupom_mensal tem_ir) as [liquida | e] eqn:Hl.
  - exists ZeroDivisionError.
    now apply (chamada_divide_por_zero _ _ _ _ _ _ liquida).
  - exists e. now apply chamada_propaga.
Qed.

(** With a principal other than zero and a period that is not negative,
    nothing divides by zero: the only exception left is [OverflowError]. *)
Lemma so_overflow (e : exn) :
  (investimento_inicial self =? 0) = false ->
  (0 <= periodo_anos self)%Z ->
  calcular_rentabilidade libm_pow self taxa_anual tipo_juros cupom_mensal
                         tem_ir = Raise e ->
  e = OverflowError.
Proof.
  intros Hp Hn H. destruct cupom_mensal.
  - rewrite (chamada_retorna libm_pow self taxa_anual tipo_juros true tem_ir
               _ eq_refl Hp) in H.
    discriminate H.
  - apply montante_levanta in H.
    destruct H as [H | (_ & H & _)]; [| congruence].
    destruct (string_dec tipo_juros "composto") as [Htipo | Htipo].
    + rewrite (bruta_composta _ _ _ _ Htipo) in H.
      destruct (py_pow libm_pow (1 + taxa_anual) (periodo_anos self))
        as [fator | e'] eqn:Hpow; [discriminate H |].
      cbn [bind] in H. injection H as <-.
      apply py_pow_levanta in Hpow. cbv zeta in Hpow.
      destruct Hpow as [(_ & He) | [(Hneg & _) | (_ & _ & _ & _ & _ & He)]];
        [exact He | lia | exact He].
    + rewrite (bruta_simples _ _ _ _ Htipo) in H.
      destruct (float_of_int (periodo_anos self)) as [anos | e'] eqn:Hanos;
        [discriminate H |].
      cbn [bind] in H. injection H as <-.
      now apply float_of_int_erro in Hanos.
Qed.

End Excecoes.

(** ** A rate of zero *)

Section TaxaZero.

Variable self : Investimento.
Variable taxa_anual : float.

Hypothesis principal_finito : finito (investimento_inicial self).
Hypothesis principal_nao_zero : (investimento_inicial self =? 0) = false.
Hypothesis taxa_zero : (taxa_anual =? 0) = true.

Lemma principal_SF :
  exists s m e, Prim2SF (investimento_inicial self) = S754_finite s m e.
Proof.
  destruct (finito_SF _ principal_finito) as [(s & H) | H]; [| exact H].
  rewrite (zero_SF _ _ H) in principal_nao_zero. discriminate.
Qed.

Lemma taxa_SF : exists s, Prim2SF taxa_anual = S754_zero s.
Proof.
  pose proof taxa_zero as H. rewrite eqb_spec in H.
  change (Prim2SF 0) with (S754_zero false) in H.
  destruct (Prim2SF taxa_anual) as [s | s | | s m e]; cbn in H;
    try discriminate H; try (destruct s; discriminate H).
  now exists s.
Qed.

(** The coupon of any month is a zero. *)
Lemma cupom_do_mes_zero (m : Z) :
  exists s, Prim2SF (cupom_do_mes self taxa_anual m) = S754_zero s.
Proof.
  destruct principal_SF as (sp & mp & ep & Hp).
  destruct taxa_SF as (sr & Hr).
  destruct (um_menos_aliquota_SF self m) as (mc & ec & Hc).
  unfold cupom_do_mes.
  assert (H12 : Prim2SF (taxa_anual / 12) = S754_zero sr).
  { rewrite div_spec, Hr. cbn. now rewrite xorb_false_r. }
  pose proof (zero_vezes_positivo _ _ _ mc ec H12 Hc) as Hm.
  exists (xorb sp sr). rewrite mul_spec, Hp, Hm. reflexivity.
Qed.

(** Adding zeros to 0.0 leaves 0.0. *)
Lemma soma_de_zeros (k : nat) :
  soma_ate (cupom_do_mes self taxa_anual) k = 0.
Proof.
  induction k as [| k IH]; [reflexivity |].
  cbn [soma_ate]. rewrite IH.
  destruct (cupom_do_mes_zero (Z.of_nat (S k))) as (s & Hs).
  apply Prim2SF_inj. rewrite add_spec, Hs.
  change (Prim2SF 0) with (S754_zero false). now destruct s.
Qed.

Lemma um_mais_taxa : 1 + taxa_anual = 1.
Proof.
  destruct taxa_SF as (s & Hr).
  apply Prim2SF_inj. rewrite add_spec, Hr. reflexivity.
Qed.

Lemma porcentagem_de_um_zero (liquida : float) (s : bool) :
  Prim2SF liquida = S754_zero s ->
  (liquida / investimento_inicial self * 100 =? 0) = true.
Proof.
  intros Hl. destruct principal_SF as (sp & mp & ep & Hp).
  assert (Hq : Prim2SF (liquida / investimento_inicial self)
               = S754_zero (xorb s sp))
    by (rewrite div_spec, Hl, Hp; reflexivity).
  apply (zero_SF _ (xorb s sp)).
  apply (zero_vezes_positivo _ _ _ 7036874417766400 (-46) Hq).
  reflexivity.
Qed.

End TaxaZero.

(** X16: on the binary64 engine, with a rate equal to zero (0.0 or -0.0),
    a finite principal other than zero and fewer than 2^1023 years in
    magnitude, the call returns in every mode and both [valor] and
    [porcentagem] compare equal to 0; in the coupon mode [valor] is 0.0
    itself. *)
Theorem X16_taxa_zero_em_binary64 (libm_pow : float -> float -> float)
    (self : Investimento) (taxa_anual : float) (tipo_juros : string)
    (cupom_mensal tem_ir : bool) :
  finito (investimento_inicial self) ->
  (investimento_inicial self =? 0) = false ->
  (taxa_anual =? 0) = true ->
  (Z.abs (periodo_anos self) < 2 ^ 1023)%Z ->
  exists res,
    calcular_rentabilidade libm_pow self taxa_anual tipo_juros cupom_mensal
                           tem_ir = Ok res
    /\ (valor res =? 0) = true
    /\ (porcentagem res =? 0) = true
    /\ (cupom_mensal = true -> valor res = 0).
Proof.
  intros Hfin Hp Hr Hn.
  assert (Hzero : exists liquida s,
             rentabilidade_liquida libm_pow self taxa_anual tipo_juros
                                   cupom_mensal tem_ir = Ok liquida
             /\ Prim2SF liquida = S754_zero s
             /\ (cupom_mensal = true -> liquida = 0)).
  { destruct cupom_mensal.
    - exists 0, false. cbn [rentabilidade_liquida].
      rewrite rentabilidade_cupom_em_ordem.
      unfold soma_meses. rewrite (soma_de_zeros self taxa_anual Hfin Hp Hr).
      repeat split.
    - assert (Hb : exists bruta s,
                 rentabilidade_bruta libm_pow self taxa_anual tipo_juros
                 = Ok bruta /\ Prim2SF bruta = S754_zero s).
      { destruct (float_of_int_cabe _ Hn) as (anos & Hanos).
        destruct (principal_SF self Hfin Hp) as (sp & mp & ep & HpSF).
        destruct (string_dec tipo_juros "composto") as [Htipo | Htipo].
        - rewrite (bruta_composta _ _ _ _ Htipo).
          rewrite (um_mais_taxa taxa_anual Hr).
          assert (Hpow : py_pow libm_pow 1 (periodo_anos self) = Ok 1).
          { unfold py_pow. rewrite Hanos. cbn [bind].
            destruct (anos =? 0); [reflexivity |].
            change (is_nan 1) with false. change (is_infinity 1) with false.
            change (1 =? 0) with false. change (1 <? 0) with false.
            cbv zeta. cbn [andb]. reflexivity. }
          rewrite Hpow. cbn [bind].
          exists 0, false. rewrite mul_1_r, sub_diag_finito by exact Hfin.
          split; reflexivity.
        - rewrite (bruta_simples _ _ _ _ Htipo), Hanos. cbn [bind].
          destruct (taxa_SF taxa_anual Hr) as (sr & HrSF).
          assert (Hpr : Prim2SF (investimento_inicial self * taxa_anual)
                        = S754_zero (xorb sp sr))
            by (rewrite mul_spec, HpSF, HrSF; reflexivity).
          assert (Hvalido : finito anos).
          { destruct (Z.eq_dec (periodo_anos self) 0) as [H0 | H0].
            - destruct (float_of_int_sinal _ _ Hanos) as (Z0 & _).
              now rewrite (Z0 H0).
            - destruct (float_of_int_sinal _ _ Hanos) as (_ & N).
              destruct (N H0) as (m & e & Hf & _).
              unfold finito, is_finite, is_nan, is_infinity.
              rewrite !eqb_spec, abs_spec, Hf. cbn.
              rewrite Z.compare_refl, Pos.compare_cont_refl.
              now destruct (periodo_anos self <? 0)%Z. }
          destruct (finito_SF _ Hvalido) as [(s & Ha) | (s & m & e & Ha)];
            eexists; eexists; (split; [reflexivity |]);
            rewrite mul_spec, Hpr, Ha; reflexivity. }
      destruct Hb as (bruta & s & Hb & Hs).
      exists (if tem_ir
              then bruta * (1 - calcular_aliquota_ir self (periodo_meses self))
              else bruta), s.
      split; [exact (liquida_do_montante _ _ _ _ _ _ Hb) |].
      split; [| intros H; discriminate H].
      destruct tem_ir; [| exact Hs].
      destruct (um_menos_aliquota_SF self (periodo_meses self))
        as (m & e & Hc).
      now apply (zero_vezes_positivo _ _ _ m e). }
  destruct Hzero as (liquida & s & Hl & Hs & Hc).
  eexists. split; [now apply (chamada_retorna _ _ _ _ _ _ liquida) |].
  cbn [valor porcentagem].
  split; [exact (zero_SF _ _ Hs) |].
  split; [| exact Hc].
  exact (porcentagem_de_um_zero self Hfin Hp liquida s Hs).
Qed.

(** The form's default principal and period at a rate of zero. *)
Lemma X16_witness :
  exists res,
    calcular_rentabilidade (fun x _ => x) (__init__ 50000 2028 2026) 0
                           "composto" false true = Ok res
    /\ (valor res =? 0) = true
    /\ (porcentagem res =? 0) = true.
Proof.
  destruct (X16_taxa_zero_em_binary64 (fun x _ => x)
              (__init__ 50000 2028 2026) 0 "composto" false true)
    as (res & Hres & Hv & Hq & _);
    try reflexivity.
  exists res. auto.
Defined.


(** * The views and [main] in binary64 *)

Section VistasEmBinary64.

Import Binary64Views.

Lemma ui_bind_emitir {B : Type} (ev : evento) (k : unit -> UI B) :
  ui_bind (emitir ev) k = (ev :: fst (k tt), snd (k tt)).
Proof.
  unfold ui_bind, emitir. destruct (k tt). reflexivity.
Qed.

Lemma ui_bind_descarta {A : Type} (m : UI A) :
  ui_bind m (fun _ => ui_ret tt)
  = (fst m, match snd m with
            | Retorna _ => Retorna tt
            | Levanta e => Levanta e
            end).
Proof.
  destruct m as [log [a | e]]; cbn; [rewrite app_nil_r |]; reflexivity.
Qed.

(** A view is a title followed, when its guard passes, by the shared part. *)
Lemma estrutura_da_view (titulo : string) (guarda : bool)
    (corpo : UI (option DataFrame)) :
  ui_bind (emitir (Title titulo))
          (fun _ => if guarda then corpo else ui_ret None)
  = if guarda then (Title titulo :: fst corpo, snd corpo)
    else ([Title titulo], Retorna None).
Proof.
  destruct guarda, corpo as [log d]; reflexivity.
Qed.

Section Corpo.

Variable libm_pow : float -> float -> float.
Variables fmt_moeda fmt_taxa fmt_porcentagem : float -> string.
Variable c : Classe.
Variable investimento : Investimento.
Variables (t1 : float) (c1 : bool) (t2 : float) (c2 : bool) (d1 d2 : float).

(** The part the three views share once their guard has passed. *)
Let corpo : UI (option DataFrame) :=
  resultados <~ chamar (calcular_resultados libm_pow c investimento
                          t1 c1 t2 c2) ;;
  df <~ exibir_resultados fmt_moeda fmt_taxa fmt_porcentagem
          resultados (periodo_anos investimento)
          (investimento_inicial investimento) c1 c2 d1 d2 ;;
  ui_ret (Some df).

Lemma corpo_da_view :
  (exists df resultados,
      corpo = ([Table df], Retorna (Some df))
      /\ df_index df = [CelTexto "Com IR"; CelTexto "Sem IR"]
      /\ calcular_resultados libm_pow c investimento t1 c1 t2 c2
         = Ok resultados)
  \/ (exists e,
         corpo = ([], Levanta (ErroCalculo e))
         /\ calcular_resultados libm_pow c investimento t1 c1 t2 c2
            = Raise e).
Proof.
  unfold corpo.
  destruct (calcular_resultados libm_pow c investimento t1 c1 t2 c2)
    as [resultados | e] eqn:E.
  - left. eexists. eexists. split; [reflexivity |]. split; reflexivity.
  - right. exists e. split; reflexivity.
Qed.

(** The dictionary is built by two calls of the base method; it raises what
    the first failing call raises. *)
Lemma calcular_resultados_levanta (e : exn) :
  calcular_resultados libm_pow c investimento t1 c1 t2 c2 = Raise e ->
  calcular_rentabilidade libm_pow investimento t1 "composto" c1 true
  = Raise e
  \/ calcular_rentabilidade libm_pow investimento t2 "composto" c2 false
     = Raise e.
Proof.
  unfold calcular_resultados.
  replace (metodo_calcular_rentabilidade libm_pow c)
    with (calcular_rentabilidade libm_pow) by (now destruct c).
  destruct (calcular_rentabilidade libm_pow investimento t1 "composto" c1
              true) as [r1 | e1]; cbn [bind].
  - destruct (calcular_rentabilidade libm_pow investimento t2 "composto" c2
                false) as [r2 | e2]; cbn [bind]; intros H;
      [discriminate H | right; injection H as ->; reflexivity].
  - intros H. left. injection H as ->. reflexivity.
Qed.

Lemma calcular_resultados_principal_zero :
  (investimento_inicial investimento =? 0) = true ->
  exists e,
    calcular_resultados libm_pow c investimento t1 c1 t2 c2 = Raise e
    /\ calcular_rentabilidade libm_pow investimento t1 "composto" c1 true
       = Raise e.
Proof.
  intros Hp.
  destruct (principal_zero_levanta libm_pow investimento t1 "composto" c1
              true Hp) as (e & He).
  exists e. split; [| exact He].
  unfold calcular_resultados.
  replace (metodo_calcular_rentabilidade libm_pow c)
    with (calcular_rentabilidade libm_pow) by (now destruct c).
  now rewrite He.
Qed.

Variables (titulo : string) (guarda : bool).

Let view : UI (option DataFrame) :=
  ui_bind (emitir (Title titulo))
          (fun _ => if guarda then corpo else ui_ret None).

Lemma fim_por_guarda : fim_da_view titulo view.
Proof.
  unfold view. rewrite estrutura_da_view. destruct guarda; [| constructor].
  destruct corpo_da_view as [(df & r & -> & Hindex & _) | (e & -> & _)];
    cbn [fst snd]; now constructor.
Qed.

Lemma view_principal_zero :
  guarda = true ->
  (investimento_inicial investimento =? 0) = true ->
  exists e,
    view = ([Title titulo], Levanta (ErroCalculo e))
    /\ calcular_rentabilidade libm_pow investimento t1 "composto" c1 true
       = Raise e.
Proof.
  intros Hg Hp. unfold view. rewrite estrutura_da_view, Hg.
  destruct (calcular_resultados_principal_zero Hp) as (e & He & H1).
  exists e. split; [| exact H1]. unfold corpo. now rewrite He.
Qed.

(** With a principal other than zero and a period that is not negative, a
    view ends by returning or with [OverflowError]. *)
Lemma view_sem_divisao_por_zero :
  (investimento_inicial investimento =? 0) = false ->
  (0 <= periodo_anos investimento)%Z ->
  (exists retorno, snd view = Retorna retorno)
  \/ snd view = Levanta (ErroCalculo OverflowError).
Proof.
  intros Hp Hn. unfold view. rewrite estrutura_da_view.
  destruct guarda; [| left; eexists; reflexivity].
  destruct corpo_da_view as [(df & r & -> & _) | (e & -> & He)];
    cbn [fst snd]; [left; eexists; reflexivity | right].
  do 2 f_equal.
  destruct (calcular_resultados_levanta e He) as [H | H];
    exact (so_overflow _ _ _ _ _ _ e Hp Hn H).
Qed.

End Corpo.

Section Main.

Variable libm_pow : float -> float -> float.
Variables fmt_moeda fmt_taxa fmt_porcentagem : float -> string.
Variable entrada : Entrada.

Let run : UI unit :=
  main libm_pow fmt_moeda fmt_taxa fmt_porcentagem entrada.

(** The four sidebar events every run starts with. *)
Let barra : list evento :=
  [SidebarTitle "Comparador de Renda Fixa"; SidebarMarkdown "---";
   SidebarSubheader "Dados de Entrada"; SidebarMarkdown "---"].

(** After the sidebar, a run is one view with its value dropped, the
    summary of an empty dictionary, or nothing. *)
Lemma main_casos :
  (exists titulo view,
      fim_da_view titulo view
      /\ run = (barra ++ fst view,
                match snd view with
                | Retorna _ => Retorna tt
                | Levanta e => Levanta e
                end))
  \/ run = (barra ++ [Title "Resumo";
                      Write "Nenhum resultado de investimento disponível."],
            Retorna tt)
  \/ run = (barra, Retorna tt).
Proof.
  unfold run, main. cbv zeta.
  repeat (rewrite ui_bind_emitir; cbv beta; cbn [fst snd]).
  destruct (String.eqb (escolha entrada) "Pré-fixado").
  { left. eexists. eexists.
    split; [unfold exibir_pre_fixado; cbv zeta; apply fim_por_guarda |].
    rewrite ui_bind_descarta. reflexivity. }
  destruct (String.eqb (escolha entrada) "Pós Fixado").
  { left. eexists. eexists.
    split; [unfold exibir_pos_fixado; cbv zeta; apply fim_por_guarda |].
    rewrite ui_bind_descarta. reflexivity. }
  destruct (String.eqb (escolha entrada) "Inflação").
  { left. eexists. eexists.
    split; [unfold exibir_inflacao; cbv zeta; apply fim_por_guarda |].
    rewrite ui_bind_descarta. reflexivity. }
  destruct (String.eqb (escolha entrada) "Resumo").
  - right; left. reflexivity.
  - right; right. reflexivity.
Qed.

Lemma main_resumo :
  escolha entrada = "Resumo"%string ->
  run = (barra ++ [Title "Resumo";
                   Write "Nenhum resultado de investimento disponível."],
         Retorna tt).
Proof.
  intros H. unfold run, main. rewrite H. reflexivity.
Qed.

End Main.

(** X10: a run of [main] never displays the summary table.  With the
    choice "Resumo" it always displays, after the sidebar, the title and the
    text "Nenhum resultado de investimento disponível.", whatever was
    entered, because the dictionary it passes to [exibir_resumo] is created
    empty in the same run.  Every table a run displays has the two rows
    "Com IR" and "Sem IR", and a run ends by returning or with an exception
    of the engine ([ZeroDivisionError] or [OverflowError]), never with
    [KeyError] or [AttributeError]. *)
Theorem X10_main_nunca_mostra_o_resumo
    (libm_pow : float -> float -> float)
    (fmt_moeda fmt_taxa fmt_porcentagem : float -> string)
    (entrada : Entrada) :
  let run := main libm_pow fmt_moeda fmt_taxa fmt_porcentagem entrada in
  (escolha entrada = "Resumo"%string ->
   run = ([SidebarTitle "Comparador de Renda Fixa"; SidebarMarkdown "---";
           SidebarSubheader "Dados de Entrada"; SidebarMarkdown "---";
           Title "Resumo";
           Write "Nenhum resultado de investimento disponível."],
          Retorna tt))
  /\ (forall df, In (Table df) (fst run) ->
                 df_index df = [CelTexto "Com IR"; CelTexto "Sem IR"])
  /\ (snd run = Retorna tt
      \/ snd run = Levanta (ErroCalculo ZeroDivisionError)
      \/ snd run = Levanta (ErroCalculo OverflowError)).
Proof.
  intros run. split; [apply main_resumo |].
  destruct (main_casos libm_pow fmt_moeda fmt_taxa fmt_porcentagem entrada)
    as [(titulo & view & Hfim & Hrun) | [Hrun | Hrun]];
    unfold run; rewrite Hrun; cbn [fst snd].
  - destruct Hfim as [| df' Hindex | e]; cbn [fst snd]; split.
    + intros df Hin. cbn in Hin.
      repeat (destruct Hin as [Hin | Hin]; [discriminate Hin |]).
      contradiction.
    + now left.
    + intros df Hin. cbn in Hin.
      repeat (destruct Hin as [Hin | Hin];
              [first [discriminate Hin
                     | injection Hin as <-; exact Hindex] |]).
      contradiction.
    + now left.
    + intros df Hin. cbn in Hin.
      repeat (destruct Hin as [Hin | Hin]; [discriminate Hin |]).
      contradiction.
    + right. destruct e; [now left | now right].
  - split; [| now left].
    intros df Hin. cbn in Hin.
    repeat (destruct Hin as [Hin | Hin]; [discriminate Hin |]).
    contradiction.
  - split; [| now left].
    intros df Hin. cbn in Hin.
    repeat (destruct Hin as [Hin | Hin]; [discriminate Hin |]).
    contradiction.
Qed.

(** The form's defaults with the choice "Resumo". *)
Lemma X10_witness :
  let entrada :=
    {| valor_investido := 50000; ano_de_vencimento := 2026;
       escolha := "Resumo";
       ano_lido_pre := 2026; ano_lido_pos := 2026; ano_lido_inf := 2026;
       form_pre := {| pre_taxa_com_ir := 15; pre_cupom_mensal_com_ir := false;
                      pre_taxa_sem_ir := 10.5;
                      pre_cupom_mensal_sem_ir := false |};
       form_pos := {| pos_cdi_anual := 11.5;
                      pos_percentual_cdi_com_ir := 125;
                      pos_cupom_mensal_com_ir := false;
                      pos_percentual_cdi_sem_ir := 95;
                      pos_cupom_mensal_sem_ir := false |};
       form_inf := {| inf_inflacao_anual := 4.5; inf_taxa_com_ir := 6.8;
                      inf_cupom_mensal_com_ir := false;
                      inf_taxa_sem_ir := 5.3;
                      inf_cupom_mensal_sem_ir := false |} |} in
  main (fun x _ => x) (fun _ => ""%string) (fun _ => ""%string)
       (fun _ => ""%string) entrada
  = ([SidebarTitle "Comparador de Renda Fixa"; SidebarMarkdown "---";
      SidebarSubheader "Dados de Entrada"; SidebarMarkdown "---";
      Title "Resumo";
      Write "Nenhum resultado de investimento disponível."],
     Retorna tt).
Proof.
  intros entrada.
  apply (X10_main_nunca_mostra_o_resumo (fun x _ => x)
           (fun _ => ""%string) (fun _ => ""%string) (fun _ => ""%string)
           entrada).
  reflexivity.
Defined.

(** X12: with a principal equal to zero, a view whose guard passes displays
    its title and raises before any table: the exception is the one the
    taxed call raises, [ZeroDivisionError] unless the power has raised
    first. *)
Theorem X12_view_principal_zero
    (libm_pow : float -> float -> float)
    (fmt_moeda fmt_taxa fmt_porcentagem : float -> string)
    (c : Classe) (investimento : Investimento) (pre : FormPre)
    (pos : FormPos) (inf : FormInf) :
  (investimento_inicial investimento =? 0) = true ->
  (negb (pre_taxa_com_ir pre / 100 =? 0)
   || negb (pre_taxa_sem_ir pre / 100 =? 0) = true ->
   exists e,
     exibir_pre_fixado libm_pow fmt_moeda fmt_taxa fmt_porcentagem c
                       investimento pre
     = ([Title "Pré-fixado"], Levanta (ErroCalculo e))
     /\ calcular_rentabilidade libm_pow investimento
          (pre_taxa_com_ir pre / 100) "composto"
          (pre_cupom_mensal_com_ir pre) true = Raise e)
  /\ (negb (pos_cdi_anual pos / 100 =? 0)
      && (negb (pos_percentual_cdi_com_ir pos / 100 =? 0)
          || negb (pos_percentual_cdi_sem_ir pos / 100 =? 0)) = true ->
      exists e,
        exibir_pos_fixado libm_pow fmt_moeda fmt_taxa fmt_porcentagem c
                          investimento pos
        = ([Title "Pós Fixado"], Levanta (ErroCalculo e))
        /\ calcular_rentabilidade libm_pow investimento
             (pos_cdi_anual pos / 100 * (pos_percentual_cdi_com_ir pos / 100))
             "composto" (pos_cupom_mensal_com_ir pos) true = Raise e)
  /\ (negb (inf_inflacao_anual inf / 100 =? 0)
      && (negb (inf_taxa_com_ir inf / 100 =? 0)
          || negb (inf_taxa_sem_ir inf / 100 =? 0)) = true ->
      exists e,
        exibir_inflacao libm_pow fmt_moeda fmt_taxa fmt_porcentagem c
                        investimento inf
        = ([Title "Inflação"], Levanta (ErroCalculo e))
        /\ calcular_rentabilidade libm_pow investimento
             (inf_inflacao_anual inf / 100 + inf_taxa_com_ir inf / 100)
             "composto" (inf_cupom_mensal_com_ir inf) true = Raise e).
Proof.
  intros Hp. split; [| split]; intros Hguarda.
  - unfold exibir_pre_fixado. cbv zeta.
    now apply view_principal_zero.
  - unfold exibir_pos_fixado. cbv zeta.
    now apply view_principal_zero.
  - unfold exibir_inflacao. cbv zeta.
    now apply view_principal_zero.
Qed.

(** The default rates of the first form on a principal of zero. *)
Lemma X12_witness :
  exists e,
    exibir_pre_fixado (fun x _ => x) (fun _ => ""%string)
      (fun _ => ""%string) (fun _ => ""%string) ClasseInvestimentoPreFixado
      (__init__ 0 2028 2026)
      {| pre_taxa_com_ir := 15; pre_cupom_mensal_com_ir := false;
         pre_taxa_sem_ir := 10.5; pre_cupom_mensal_sem_ir := false |}
    = ([Title "Pré-fixado"], Levanta (ErroCalculo e)).
Proof.
  destruct (X12_view_principal_zero (fun x _ => x) (fun _ => ""%string)
              (fun _ => ""%string) (fun _ => ""%string)
              ClasseInvestimentoPreFixado (__init__ 0 2028 2026)
              {| pre_taxa_com_ir := 15; pre_cupom_mensal_com_ir := false;
                 pre_taxa_sem_ir := 10.5; pre_cupom_mensal_sem_ir := false |}
              {| pos_cdi_anual := 0; pos_percentual_cdi_com_ir := 0;
                 pos_cupom_mensal_com_ir := false;
                 pos_percentual_cdi_sem_ir := 0;
                 pos_cupom_mensal_sem_ir := false |}
              {| inf_inflacao_anual := 0; inf_taxa_com_ir := 0;
                 inf_cupom_mensal_com_ir := false; inf_taxa_sem_ir := 0;
                 inf_cupom_mensal_sem_ir := false |})
    as (Hpre & _).
  - reflexivity.
  - destruct Hpre as (e & He & _); [reflexivity |].
    exists e. exact He.
Defined.

(** X13: a run of [main] with an amount invested other than zero and a
    maturity year not before the year each constructor reads from the clock
    never divides by zero: it ends by returning or, when a power is beyond
    the floats, with [OverflowError], whatever the choice and whatever is
    entered in the forms. *)
Theorem X13_main_sem_divisao_por_zero
    (libm_pow : float -> float -> float)
    (fmt_moeda fmt_taxa fmt_porcentagem : float -> string)
    (entrada : Entrada) :
  (valor_investido entrada =? 0) = false ->
  (ano_lido_pre entrada <= ano_de_vencimento entrada)%Z ->
  (ano_lido_pos entrada <= ano_de_vencimento entrada)%Z ->
  (ano_lido_inf entrada <= ano_de_vencimento entrada)%Z ->
  snd (main libm_pow fmt_moeda fmt_taxa fmt_porcentagem entrada) = Retorna tt
  \/ snd (main libm_pow fmt_moeda fmt_taxa fmt_porcentagem entrada)
     = Levanta (ErroCalculo OverflowError).
Proof.
  intros Hp Hpre Hpos Hinf.
  assert (Hfim : forall view : UI (option DataFrame),
             (exists retorno, snd view = Retorna retorno)
             \/ snd view = Levanta (ErroCalculo OverflowError) ->
             snd (ui_bind view (fun _ => ui_ret tt)) = Retorna tt
             \/ snd (ui_bind view (fun _ => ui_ret tt))
                = Levanta (ErroCalculo OverflowError)).
  { intros view H. rewrite ui_bind_descarta. cbn [snd].
    destruct H as [(retorno & ->) | ->]; [now left | now right]. }
  unfold main. cbv zeta.
  repeat (rewrite ui_bind_emitir; cbv beta; cbn [fst snd]).
  destruct (String.eqb (escolha entrada) "Pré-fixado").
  { apply Hfim. unfold exibir_pre_fixado. cbv zeta.
    apply view_sem_divisao_por_zero; [exact Hp |].
    cbn [construtor __init__ periodo_anos]. lia. }
  destruct (String.eqb (escolha entrada) "Pós Fixado").
  { apply Hfim. unfold exibir_pos_fixado. cbv zeta.
    apply view_sem_divisao_por_zero; [exact Hp |].
    cbn [construtor __init__ periodo_anos]. lia. }
  destruct (String.eqb (escolha entrada) "Inflação").
  { apply Hfim. unfold exibir_inflacao. cbv zeta.
    apply view_sem_divisao_por_zero; [exact Hp |].
    cbn [construtor __init__ periodo_anos]. lia. }
  destruct (String.eqb (escolha entrada) "Resumo"); left; reflexivity.
Qed.

(** The defaults of the application: 50000 until 2026, read in 2026, first
    view, 15% taxed and 10.5% untaxed. *)
Lemma X13_witness :
  snd (main (fun x _ => x) (fun _ => ""%string) (fun _ => ""%string)
         (fun _ => ""%string)
         {| valor_investido := 50000; ano_de_vencimento := 2026;
            escolha := "Pré-fixado";
            ano_lido_pre := 2026; ano_lido_pos := 2026; ano_lido_inf := 2026;
            form_pre := {| pre_taxa_com_ir := 15;
                           pre_cupom_mensal_com_ir := false;
                           pre_taxa_sem_ir := 10.5;
                           pre_cupom_mensal_sem_ir := false |};
            form_pos := {| pos_cdi_anual := 11.5;
                           pos_percentual_cdi_com_ir := 125;
                           pos_cupom_mensal_com_ir := false;
                           pos_percentual_cdi_sem_ir := 95;
                           pos_cupom_mensal_sem_ir := false |};
            form_inf := {| inf_inflacao_anual := 4.5; inf_taxa_com_ir := 6.8;
                           inf_cupom_mensal_com_ir := false;
                           inf_taxa_sem_ir := 5.3;
                           inf_cupom_mensal_sem_ir := false |} |})
  = Retorna tt.
Proof.
  destruct (fun H1 H2 H3 H4 =>
            X13_main_sem_divisao_por_zero (fun x _ => x)
              (fun _ => ""%string) (fun _ => ""%string) (fun _ => ""%string)
              {| valor_investido := 50000; ano_de_vencimento := 2026;
                 escolha := "Pré-fixado";
                 ano_lido_pre := 2026; ano_lido_pos := 2026;
                 ano_lido_inf := 2026;
                 form_pre := {| pre_taxa_com_ir := 15;
                                pre_cupom_mensal_com_ir := false;
                                pre_taxa_sem_ir := 10.5;
                                pre_cupom_mensal_sem_ir := false |};
                 form_pos := {| pos_cdi_anual := 11.5;
                                pos_percentual_cdi_com_ir := 125;
                                pos_cupom_mensal_com_ir := false;
                                pos_percentual_cdi_sem_ir := 95;
                                pos_cupom_mensal_sem_ir := false |};
                 form_inf := {| inf_inflacao_anual := 4.5;
                                inf_taxa_com_ir := 6.8;
                                inf_cupom_mensal_com_ir := false;
                                inf_taxa_sem_ir := 5.3;
                                inf_cupom_mensal_sem_ir := false |} |}
              H1 H2 H3 H4) as [H | H].
  - reflexivity.
  - cbn. lia.
  - cbn. lia.
  - cbn. lia.
  - exact H.
  - vm_compute in H. discriminate H.
Defined.

End VistasEmBinary64.


End EmBinary64.
